(** * alert-new/recipes: the recipe engine, embedded and verified

    A shallow embedding of the TypeScript sources of the catalogue
    (helpers.ts, validate.ts, index.ts, types.ts, recipes/amazon.ts,
    recipes/ebay.ts, recipes/generic.ts) together with the part of the
    ECMAScript platform they call: strings of UTF-16 code units, binary64
    numbers, [parseFloat], [parseInt], [Math.round], regular expressions,
    [JSON.parse] and the dynamic values that come out of it.

    Conventions.
    - A JavaScript string is a list of code units ([jsstring]).  String
      literals are written with [str]; [q] is [str] with the backquote
      standing for the double quote.
    - A JavaScript number is a binary64 value, [spec_float] with
      precision 53 and maximal exponent 1024; decimal text is converted
      with correct rounding (round to nearest, ties to even).
    - Code that may throw returns a [completion]; [await] of a promise is
      the completion of the asynchronous function.
    - An object used as a record or dictionary is the list of its own
      properties in the order [Object.entries] enumerates them. *)

From Stdlib Require Import ZArith NArith List String Ascii Bool Lia.
From Stdlib Require Import SpecFloat.
Import ListNotations.

Set Implicit Arguments.
Set Warnings "-register-all".
Local Open Scope Z_scope.

(* ================================================================== *)
(** * Strings *)
(* ================================================================== *)

Module JsString.

Definition jsstring := list N.

Definition str (s : string) : jsstring :=
  List.map N_of_ascii (list_ascii_of_string s).

(** [q] is [str] with every backquote replaced by the double quote
    (code unit 34). *)
Definition q (s : string) : jsstring :=
  List.map (fun c => if N.eqb c 96 then 34%N else c) (str s).

Fixpoint eqb (a b : jsstring) : bool :=
  match a, b with
  | [], [] => true
  | x :: a', y :: b' => N.eqb x y && eqb a' b'
  | _, _ => false
  end.

Definition in_range (lo hi c : N) : bool := (N.leb lo c && N.leb c hi)%bool.

(** WhiteSpace and LineTerminator code units: what [trim] strips and what
    [\s] matches. *)
Definition is_whitespace (c : N) : bool :=
  (in_range 9 13 c || N.eqb c 32 || N.eqb c 160 || N.eqb c 5760
   || in_range 8192 8202 c || N.eqb c 8232 || N.eqb c 8233
   || N.eqb c 8239 || N.eqb c 8287 || N.eqb c 12288 || N.eqb c 65279)%bool.

Definition is_line_terminator (c : N) : bool :=
  (N.eqb c 10 || N.eqb c 13 || N.eqb c 8232 || N.eqb c 8233)%bool.

Definition is_digit (c : N) : bool := in_range 48 57 c.

Definition is_word_char (c : N) : bool :=
  (in_range 97 122 c || in_range 65 90 c || is_digit c || N.eqb c 95)%bool.

Fixpoint trimStart (s : jsstring) : jsstring :=
  match s with
  | c :: s' => if is_whitespace c then trimStart s' else s
  | [] => []
  end.

Definition trimEnd (s : jsstring) : jsstring := rev (trimStart (rev s)).

Definition trim (s : jsstring) : jsstring := trimEnd (trimStart s).

(** ** [toLowerCase]

    [String.prototype.toLowerCase] works on code points and follows the
    Unicode Default Case Conversion: the simple lower-case mapping of
    each code point, the one unconditional special mapping (U+0130, to
    [i] and a combining dot above) and the one context rule (capital
    sigma, which becomes the final form at the end of a word).  The
    tables are those of the Unicode Character Database, version 14. *)

Definition case_run (first last step : N) (delta : Z) : N * N * N * Z :=
  (first, last, step, delta).

Definition code_span (first last : N) : N * N := (first, last).

(** [case_run first last step delta]: the code points [first],
    [first + step], ..., [last] map to themselves plus [delta]. *)
Definition lower_runs : list (N * N * N * Z) :=
  [
    case_run 65 90 1 32; case_run 192 214 1 32; case_run 216 222 1 32; case_run 256 302 2 1;
    case_run 306 310 2 1; case_run 313 327 2 1; case_run 330 374 2 1; case_run 376 376 1 (-121);
    case_run 377 381 2 1; case_run 385 385 1 210; case_run 386 388 2 1; case_run 390 390 1 206;
    case_run 391 391 1 1; case_run 393 394 1 205; case_run 395 395 1 1; case_run 398 398 1 79;
    case_run 399 399 1 202; case_run 400 400 1 203; case_run 401 401 1 1; case_run 403 403 1 205;
    case_run 404 404 1 207; case_run 406 406 1 211; case_run 407 407 1 209; case_run 408 408 1 1;
    case_run 412 412 1 211; case_run 413 413 1 213; case_run 415 415 1 214; case_run 416 420 2 1;
    case_run 422 422 1 218; case_run 423 423 1 1; case_run 425 425 1 218; case_run 428 428 1 1;
    case_run 430 430 1 218; case_run 431 431 1 1; case_run 433 434 1 217; case_run 435 437 2 1;
    case_run 439 439 1 219; case_run 440 440 1 1; case_run 444 444 1 1; case_run 452 452 1 2;
    case_run 453 453 1 1; case_run 455 455 1 2; case_run 456 456 1 1; case_run 458 458 1 2;
    case_run 459 475 2 1; case_run 478 494 2 1; case_run 497 497 1 2; case_run 498 500 2 1;
    case_run 502 502 1 (-97); case_run 503 503 1 (-56); case_run 504 542 2 1; case_run 544 544 1 (-130);
    case_run 546 562 2 1; case_run 570 570 1 10795; case_run 571 571 1 1; case_run 573 573 1 (-163);
    case_run 574 574 1 10792; case_run 577 577 1 1; case_run 579 579 1 (-195); case_run 580 580 1 69;
    case_run 581 581 1 71; case_run 582 590 2 1; case_run 880 882 2 1; case_run 886 886 1 1;
    case_run 895 895 1 116; case_run 902 902 1 38; case_run 904 906 1 37; case_run 908 908 1 64;
    case_run 910 911 1 63; case_run 913 929 1 32; case_run 932 939 1 32; case_run 975 975 1 8;
    case_run 984 1006 2 1; case_run 1012 1012 1 (-60); case_run 1015 1015 1 1; case_run 1017 1017 1 (-7);
    case_run 1018 1018 1 1; case_run 1021 1023 1 (-130); case_run 1024 1039 1 80; case_run 1040 1071 1 32;
    case_run 1120 1152 2 1; case_run 1162 1214 2 1; case_run 1216 1216 1 15; case_run 1217 1229 2 1;
    case_run 1232 1326 2 1; case_run 1329 1366 1 48; case_run 4256 4293 1 7264; case_run 4295 4295 1 7264;
    case_run 4301 4301 1 7264; case_run 5024 5103 1 38864; case_run 5104 5109 1 8; case_run 7312 7354 1 (-3008);
    case_run 7357 7359 1 (-3008); case_run 7680 7828 2 1; case_run 7838 7838 1 (-7615); case_run 7840 7934 2 1;
    case_run 7944 7951 1 (-8); case_run 7960 7965 1 (-8); case_run 7976 7983 1 (-8); case_run 7992 7999 1 (-8);
    case_run 8008 8013 1 (-8); case_run 8025 8031 2 (-8); case_run 8040 8047 1 (-8); case_run 8072 8079 1 (-8);
    case_run 8088 8095 1 (-8); case_run 8104 8111 1 (-8); case_run 8120 8121 1 (-8); case_run 8122 8123 1 (-74);
    case_run 8124 8124 1 (-9); case_run 8136 8139 1 (-86); case_run 8140 8140 1 (-9); case_run 8152 8153 1 (-8);
    case_run 8154 8155 1 (-100); case_run 8168 8169 1 (-8); case_run 8170 8171 1 (-112); case_run 8172 8172 1 (-7);
    case_run 8184 8185 1 (-128); case_run 8186 8187 1 (-126); case_run 8188 8188 1 (-9); case_run 8486 8486 1 (-7517);
    case_run 8490 8490 1 (-8383); case_run 8491 8491 1 (-8262); case_run 8498 8498 1 28; case_run 8544 8559 1 16;
    case_run 8579 8579 1 1; case_run 9398 9423 1 26; case_run 11264 11311 1 48; case_run 11360 11360 1 1;
    case_run 11362 11362 1 (-10743); case_run 11363 11363 1 (-3814); case_run 11364 11364 1 (-10727); case_run 11367 11371 2 1;
    case_run 11373 11373 1 (-10780); case_run 11374 11374 1 (-10749); case_run 11375 11375 1 (-10783); case_run 11376 11376 1 (-10782);
    case_run 11378 11378 1 1; case_run 11381 11381 1 1; case_run 11390 11391 1 (-10815); case_run 11392 11490 2 1;
    case_run 11499 11501 2 1; case_run 11506 11506 1 1; case_run 42560 42604 2 1; case_run 42624 42650 2 1;
    case_run 42786 42798 2 1; case_run 42802 42862 2 1; case_run 42873 42875 2 1; case_run 42877 42877 1 (-35332);
    case_run 42878 42886 2 1; case_run 42891 42891 1 1; case_run 42893 42893 1 (-42280); case_run 42896 42898 2 1;
    case_run 42902 42920 2 1; case_run 42922 42922 1 (-42308); case_run 42923 42923 1 (-42319); case_run 42924 42924 1 (-42315);
    case_run 42925 42925 1 (-42305); case_run 42926 42926 1 (-42308); case_run 42928 42928 1 (-42258); case_run 42929 42929 1 (-42282);
    case_run 42930 42930 1 (-42261); case_run 42931 42931 1 928; case_run 42932 42946 2 1; case_run 42948 42948 1 (-48);
    case_run 42949 42949 1 (-42307); case_run 42950 42950 1 (-35384); case_run 42951 42953 2 1; case_run 42960 42960 1 1;
    case_run 42966 42968 2 1; case_run 42997 42997 1 1; case_run 65313 65338 1 32; case_run 66560 66599 1 40;
    case_run 66736 66771 1 40; case_run 66928 66938 1 39; case_run 66940 66954 1 39; case_run 66956 66962 1 39;
    case_run 66964 66965 1 39; case_run 68736 68786 1 64; case_run 71840 71871 1 32; case_run 93760 93791 1 32;
    case_run 125184 125217 1 34 ].

Definition cased_ranges : list (N * N) :=
  [
    code_span 65 90; code_span 97 122; code_span 170 170; code_span 181 181; code_span 186 186;
    code_span 192 214; code_span 216 246; code_span 248 442; code_span 444 447; code_span 452 659;
    code_span 661 687; code_span 880 883; code_span 886 887; code_span 891 893; code_span 895 895;
    code_span 902 902; code_span 904 906; code_span 908 908; code_span 910 929; code_span 931 1013;
    code_span 1015 1153; code_span 1162 1327; code_span 1329 1366; code_span 1376 1416; code_span 4256 4293;
    code_span 4295 4295; code_span 4301 4301; code_span 4304 4346; code_span 4349 4351; code_span 5024 5109;
    code_span 5112 5117; code_span 7296 7304; code_span 7312 7354; code_span 7357 7359; code_span 7424 7467;
    code_span 7531 7543; code_span 7545 7578; code_span 7680 7957; code_span 7960 7965; code_span 7968 8005;
    code_span 8008 8013; code_span 8016 8023; code_span 8025 8025; code_span 8027 8027; code_span 8029 8029;
    code_span 8031 8061; code_span 8064 8116; code_span 8118 8124; code_span 8126 8126; code_span 8130 8132;
    code_span 8134 8140; code_span 8144 8147; code_span 8150 8155; code_span 8160 8172; code_span 8178 8180;
    code_span 8182 8188; code_span 8450 8450; code_span 8455 8455; code_span 8458 8467; code_span 8469 8469;
    code_span 8473 8477; code_span 8484 8484; code_span 8486 8486; code_span 8488 8488; code_span 8490 8493;
    code_span 8495 8500; code_span 8505 8505; code_span 8508 8511; code_span 8517 8521; code_span 8526 8526;
    code_span 8544 8575; code_span 8579 8580; code_span 9398 9449; code_span 11264 11387; code_span 11390 11492;
    code_span 11499 11502; code_span 11506 11507; code_span 11520 11557; code_span 11559 11559; code_span 11565 11565;
    code_span 42560 42605; code_span 42624 42651; code_span 42786 42863; code_span 42865 42887; code_span 42891 42894;
    code_span 42896 42954; code_span 42960 42961; code_span 42963 42963; code_span 42965 42969; code_span 42997 42998;
    code_span 43002 43002; code_span 43824 43866; code_span 43872 43880; code_span 43888 43967; code_span 64256 64262;
    code_span 64275 64279; code_span 65313 65338; code_span 65345 65370; code_span 66560 66639; code_span 66736 66771;
    code_span 66776 66811; code_span 66928 66938; code_span 66940 66954; code_span 66956 66962; code_span 66964 66965;
    code_span 66967 66977; code_span 66979 66993; code_span 66995 67001; code_span 67003 67004; code_span 68736 68786;
    code_span 68800 68850; code_span 71840 71903; code_span 93760 93823; code_span 119808 119892; code_span 119894 119964;
    code_span 119966 119967; code_span 119970 119970; code_span 119973 119974; code_span 119977 119980; code_span 119982 119993;
    code_span 119995 119995; code_span 119997 120003; code_span 120005 120069; code_span 120071 120074; code_span 120077 120084;
    code_span 120086 120092; code_span 120094 120121; code_span 120123 120126; code_span 120128 120132; code_span 120134 120134;
    code_span 120138 120144; code_span 120146 120485; code_span 120488 120512; code_span 120514 120538; code_span 120540 120570;
    code_span 120572 120596; code_span 120598 120628; code_span 120630 120654; code_span 120656 120686; code_span 120688 120712;
    code_span 120714 120744; code_span 120746 120770; code_span 120772 120779; code_span 122624 122633; code_span 122635 122654;
    code_span 125184 125251; code_span 127280 127305; code_span 127312 127337; code_span 127344 127369 ].

Definition case_ignorable_ranges : list (N * N) :=
  [
    code_span 39 39; code_span 46 46; code_span 58 58; code_span 94 94; code_span 96 96;
    code_span 168 168; code_span 173 173; code_span 175 175; code_span 180 180; code_span 183 184;
    code_span 688 879; code_span 884 885; code_span 890 890; code_span 900 901; code_span 903 903;
    code_span 1155 1161; code_span 1369 1369; code_span 1375 1375; code_span 1425 1469; code_span 1471 1471;
    code_span 1473 1474; code_span 1476 1477; code_span 1479 1479; code_span 1524 1524; code_span 1536 1541;
    code_span 1552 1562; code_span 1564 1564; code_span 1600 1600; code_span 1611 1631; code_span 1648 1648;
    code_span 1750 1757; code_span 1759 1768; code_span 1770 1773; code_span 1807 1807; code_span 1809 1809;
    code_span 1840 1866; code_span 1958 1968; code_span 2027 2037; code_span 2042 2042; code_span 2045 2045;
    code_span 2070 2093; code_span 2137 2139; code_span 2184 2184; code_span 2192 2193; code_span 2200 2207;
    code_span 2249 2306; code_span 2362 2362; code_span 2364 2364; code_span 2369 2376; code_span 2381 2381;
    code_span 2385 2391; code_span 2402 2403; code_span 2417 2417; code_span 2433 2433; code_span 2492 2492;
    code_span 2497 2500; code_span 2509 2509; code_span 2530 2531; code_span 2558 2558; code_span 2561 2562;
    code_span 2620 2620; code_span 2625 2626; code_span 2631 2632; code_span 2635 2637; code_span 2641 2641;
    code_span 2672 2673; code_span 2677 2677; code_span 2689 2690; code_span 2748 2748; code_span 2753 2757;
    code_span 2759 2760; code_span 2765 2765; code_span 2786 2787; code_span 2810 2815; code_span 2817 2817;
    code_span 2876 2876; code_span 2879 2879; code_span 2881 2884; code_span 2893 2893; code_span 2901 2902;
    code_span 2914 2915; code_span 2946 2946; code_span 3008 3008; code_span 3021 3021; code_span 3072 3072;
    code_span 3076 3076; code_span 3132 3132; code_span 3134 3136; code_span 3142 3144; code_span 3146 3149;
    code_span 3157 3158; code_span 3170 3171; code_span 3201 3201; code_span 3260 3260; code_span 3263 3263;
    code_span 3270 3270; code_span 3276 3277; code_span 3298 3299; code_span 3328 3329; code_span 3387 3388;
    code_span 3393 3396; code_span 3405 3405; code_span 3426 3427; code_span 3457 3457; code_span 3530 3530;
    code_span 3538 3540; code_span 3542 3542; code_span 3633 3633; code_span 3636 3642; code_span 3654 3662;
    code_span 3761 3761; code_span 3764 3772; code_span 3782 3782; code_span 3784 3789; code_span 3864 3865;
    code_span 3893 3893; code_span 3895 3895; code_span 3897 3897; code_span 3953 3966; code_span 3968 3972;
    code_span 3974 3975; code_span 3981 3991; code_span 3993 4028; code_span 4038 4038; code_span 4141 4144;
    code_span 4146 4151; code_span 4153 4154; code_span 4157 4158; code_span 4184 4185; code_span 4190 4192;
    code_span 4209 4212; code_span 4226 4226; code_span 4229 4230; code_span 4237 4237; code_span 4253 4253;
    code_span 4348 4348; code_span 4957 4959; code_span 5906 5908; code_span 5938 5939; code_span 5970 5971;
    code_span 6002 6003; code_span 6068 6069; code_span 6071 6077; code_span 6086 6086; code_span 6089 6099;
    code_span 6103 6103; code_span 6109 6109; code_span 6155 6159; code_span 6211 6211; code_span 6277 6278;
    code_span 6313 6313; code_span 6432 6434; code_span 6439 6440; code_span 6450 6450; code_span 6457 6459;
    code_span 6679 6680; code_span 6683 6683; code_span 6742 6742; code_span 6744 6750; code_span 6752 6752;
    code_span 6754 6754; code_span 6757 6764; code_span 6771 6780; code_span 6783 6783; code_span 6823 6823;
    code_span 6832 6862; code_span 6912 6915; code_span 6964 6964; code_span 6966 6970; code_span 6972 6972;
    code_span 6978 6978; code_span 7019 7027; code_span 7040 7041; code_span 7074 7077; code_span 7080 7081;
    code_span 7083 7085; code_span 7142 7142; code_span 7144 7145; code_span 7149 7149; code_span 7151 7153;
    code_span 7212 7219; code_span 7222 7223; code_span 7288 7293; code_span 7376 7378; code_span 7380 7392;
    code_span 7394 7400; code_span 7405 7405; code_span 7412 7412; code_span 7416 7417; code_span 7468 7530;
    code_span 7544 7544; code_span 7579 7679; code_span 8125 8125; code_span 8127 8129; code_span 8141 8143;
    code_span 8157 8159; code_span 8173 8175; code_span 8189 8190; code_span 8203 8207; code_span 8216 8217;
    code_span 8228 8228; code_span 8231 8231; code_span 8234 8238; code_span 8288 8292; code_span 8294 8303;
    code_span 8305 8305; code_span 8319 8319; code_span 8336 8348; code_span 8400 8432; code_span 11388 11389;
    code_span 11503 11505; code_span 11631 11631; code_span 11647 11647; code_span 11744 11775; code_span 11823 11823;
    code_span 12293 12293; code_span 12330 12333; code_span 12337 12341; code_span 12347 12347; code_span 12441 12446;
    code_span 12540 12542; code_span 40981 40981; code_span 42232 42237; code_span 42508 42508; code_span 42607 42610;
    code_span 42612 42621; code_span 42623 42623; code_span 42652 42655; code_span 42736 42737; code_span 42752 42785;
    code_span 42864 42864; code_span 42888 42890; code_span 42994 42996; code_span 43000 43001; code_span 43010 43010;
    code_span 43014 43014; code_span 43019 43019; code_span 43045 43046; code_span 43052 43052; code_span 43204 43205;
    code_span 43232 43249; code_span 43263 43263; code_span 43302 43309; code_span 43335 43345; code_span 43392 43394;
    code_span 43443 43443; code_span 43446 43449; code_span 43452 43453; code_span 43471 43471; code_span 43493 43494;
    code_span 43561 43566; code_span 43569 43570; code_span 43573 43574; code_span 43587 43587; code_span 43596 43596;
    code_span 43632 43632; code_span 43644 43644; code_span 43696 43696; code_span 43698 43700; code_span 43703 43704;
    code_span 43710 43711; code_span 43713 43713; code_span 43741 43741; code_span 43756 43757; code_span 43763 43764;
    code_span 43766 43766; code_span 43867 43871; code_span 43881 43883; code_span 44005 44005; code_span 44008 44008;
    code_span 44013 44013; code_span 64286 64286; code_span 64434 64450; code_span 65024 65039; code_span 65043 65043;
    code_span 65056 65071; code_span 65106 65106; code_span 65109 65109; code_span 65279 65279; code_span 65287 65287;
    code_span 65294 65294; code_span 65306 65306; code_span 65342 65342; code_span 65344 65344; code_span 65392 65392;
    code_span 65438 65439; code_span 65507 65507; code_span 65529 65531; code_span 66045 66045; code_span 66272 66272;
    code_span 66422 66426; code_span 67456 67461; code_span 67463 67504; code_span 67506 67514; code_span 68097 68099;
    code_span 68101 68102; code_span 68108 68111; code_span 68152 68154; code_span 68159 68159; code_span 68325 68326;
    code_span 68900 68903; code_span 69291 69292; code_span 69446 69456; code_span 69506 69509; code_span 69633 69633;
    code_span 69688 69702; code_span 69744 69744; code_span 69747 69748; code_span 69759 69761; code_span 69811 69814;
    code_span 69817 69818; code_span 69821 69821; code_span 69826 69826; code_span 69837 69837; code_span 69888 69890;
    code_span 69927 69931; code_span 69933 69940; code_span 70003 70003; code_span 70016 70017; code_span 70070 70078;
    code_span 70089 70092; code_span 70095 70095; code_span 70191 70193; code_span 70196 70196; code_span 70198 70199;
    code_span 70206 70206; code_span 70367 70367; code_span 70371 70378; code_span 70400 70401; code_span 70459 70460;
    code_span 70464 70464; code_span 70502 70508; code_span 70512 70516; code_span 70712 70719; code_span 70722 70724;
    code_span 70726 70726; code_span 70750 70750; code_span 70835 70840; code_span 70842 70842; code_span 70847 70848;
    code_span 70850 70851; code_span 71090 71093; code_span 71100 71101; code_span 71103 71104; code_span 71132 71133;
    code_span 71219 71226; code_span 71229 71229; code_span 71231 71232; code_span 71339 71339; code_span 71341 71341;
    code_span 71344 71349; code_span 71351 71351; code_span 71453 71455; code_span 71458 71461; code_span 71463 71467;
    code_span 71727 71735; code_span 71737 71738; code_span 71995 71996; code_span 71998 71998; code_span 72003 72003;
    code_span 72148 72151; code_span 72154 72155; code_span 72160 72160; code_span 72193 72202; code_span 72243 72248;
    code_span 72251 72254; code_span 72263 72263; code_span 72273 72278; code_span 72281 72283; code_span 72330 72342;
    code_span 72344 72345; code_span 72752 72758; code_span 72760 72765; code_span 72767 72767; code_span 72850 72871;
    code_span 72874 72880; code_span 72882 72883; code_span 72885 72886; code_span 73009 73014; code_span 73018 73018;
    code_span 73020 73021; code_span 73023 73029; code_span 73031 73031; code_span 73104 73105; code_span 73109 73109;
    code_span 73111 73111; code_span 73459 73460; code_span 78896 78904; code_span 92912 92916; code_span 92976 92982;
    code_span 92992 92995; code_span 94031 94031; code_span 94095 94111; code_span 94176 94177; code_span 94179 94180;
    code_span 110576 110579; code_span 110581 110587; code_span 110589 110590; code_span 113821 113822; code_span 113824 113827;
    code_span 118528 118573; code_span 118576 118598; code_span 119143 119145; code_span 119155 119170; code_span 119173 119179;
    code_span 119210 119213; code_span 119362 119364; code_span 121344 121398; code_span 121403 121452; code_span 121461 121461;
    code_span 121476 121476; code_span 121499 121503; code_span 121505 121519; code_span 122880 122886; code_span 122888 122904;
    code_span 122907 122913; code_span 122915 122916; code_span 122918 122922; code_span 123184 123197; code_span 123566 123566;
    code_span 123628 123631; code_span 125136 125142; code_span 125252 125259; code_span 127995 127999; code_span 917505 917505;
    code_span 917536 917631; code_span 917760 917999 ].

Definition in_run (c : N) (r : N * N * N * Z) : bool :=
  let '(first, last, step, _) := r in
  (in_range first last c && N.eqb ((c - first) mod step) 0)%bool.

Definition lower_point (c : N) : N :=
  match List.find (in_run c) lower_runs with
  | Some (_, _, _, delta) => Z.to_N (Z.of_N c + delta)
  | None => c
  end.

Definition in_spans (spans : list (N * N)) (c : N) : bool :=
  existsb (fun s => in_range (fst s) (snd s) c) spans.

(** Cased and not Case_Ignorable; Case_Ignorable. *)
Definition is_cased (c : N) : bool := in_spans cased_ranges c.
Definition is_case_ignorable (c : N) : bool := in_spans case_ignorable_ranges c.

(** The code points of a string: a high surrogate followed by a low one
    is one code point, any other code unit stands for itself. *)
Definition is_high_surrogate (c : N) : bool := in_range 55296 56319 c.
Definition is_low_surrogate (c : N) : bool := in_range 56320 57343 c.

Fixpoint code_points (s : jsstring) : list N :=
  match s with
  | [] => []
  | h :: s' =>
      match s' with
      | l :: s'' =>
          if (is_high_surrogate h && is_low_surrogate l)%bool
          then (65536 + (h - 55296) * 1024 + (l - 56320))%N :: code_points s''
          else h :: code_points s'
      | [] => [h]
      end
  end.

Definition code_units (c : N) : jsstring :=
  if N.ltb c 65536 then [c]
  else [(55296 + (c - 65536) / 1024)%N; (56320 + (c - 65536) mod 1024)%N].

(** Is the first code point that is not case-ignorable a cased one? *)
Fixpoint cased_next (l : list N) : bool :=
  match l with
  | [] => false
  | c :: l' => if is_case_ignorable c then cased_next l' else is_cased c
  end.

(** Final_Sigma: a cased letter before (case-ignorable code points
    skipped) and none after. *)
Definition final_sigma (before after : list N) : bool :=
  (cased_next before && negb (cased_next after))%bool.

(** [before] holds the code points already read, the last one first. *)
Fixpoint lower_points (before l : list N) : list N :=
  match l with
  | [] => []
  | c :: l' =>
      (if N.eqb c 931 then [if final_sigma before l' then 962%N else 963%N]
       else if N.eqb c 304 then [105%N; 775%N]
       else [lower_point c])
      ++ lower_points (c :: before) l'
  end.

Definition toLowerCase (s : jsstring) : jsstring :=
  flat_map code_units (lower_points [] (code_points s)).

Fixpoint startsWith (s p : jsstring) : bool :=
  match p, s with
  | [], _ => true
  | x :: p', y :: s' => N.eqb x y && startsWith s' p'
  | _ :: _, [] => false
  end.

Definition endsWith (s p : jsstring) : bool := startsWith (rev s) (rev p).

Fixpoint includes (s p : jsstring) : bool :=
  startsWith s p ||
  match s with
  | [] => false
  | _ :: s' => includes s' p
  end.

(** [s.replace(p, r)] with a string pattern: the first occurrence only. *)
Fixpoint replace_first (p r s : jsstring) : jsstring :=
  if startsWith s p then r ++ skipn (List.length p) s
  else match s with
       | [] => []
       | c :: s' => c :: replace_first p r s'
       end.

(** [s.replace(/[...]/g, '')] for a class of single code units: every
    code unit of the class is deleted. *)
Definition delete_all (cls : N -> bool) (s : jsstring) : jsstring :=
  List.filter (fun c => negb (cls c)) s.

Definition slice_from (n : nat) (s : jsstring) : jsstring := skipn n s.

Fixpoint concat (l : list jsstring) : jsstring :=
  match l with
  | [] => []
  | s :: l' => s ++ concat l'
  end.

End JsString.
Export JsString.

(* ================================================================== *)
(** * Numbers *)
(* ================================================================== *)

Module JsNumber.

Definition number := spec_float.

Definition prec : Z := 53.
Definition emax : Z := 1024.

Definition NaN : number := S754_nan.
Definition pos_zero : number := S754_zero false.
Definition neg_zero : number := S754_zero true.
Definition infinity (neg : bool) : number := S754_infinity neg.

(** The Number value for an integer. *)
Definition of_Z (z : Z) : number := binary_normalize prec emax z 0 false.

(** The Number value for [d * 10^e], [0 <= d], with the sign [neg]:
    what a decimal literal or [StringToNumber] denotes. *)
Definition of_decimal (neg : bool) (d e : Z) : number :=
  if d =? 0 then S754_zero neg
  else if 0 <=? e then
    binary_normalize prec emax (cond_Zopp neg (d * 10 ^ e)) 0 neg
  else
    let '(m, e', l) := SFdiv_core_binary prec emax d 0 (10 ^ (- e)) 0 in
    binary_round_aux prec emax neg m e' l.

Definition mul (x y : number) : number := SFmul prec emax x y.

Definition is_nan (x : number) : bool :=
  match x with S754_nan => true | _ => false end.

(** [ToBoolean] of a number: false for NaN, +0 and -0. *)
Definition truthy (x : number) : bool :=
  match x with
  | S754_nan | S754_zero _ => false
  | _ => true
  end.

(** [x > y] *)
Definition gt (x y : number) : bool := SFltb y x.

(** [x === y] on numbers *)
Definition strict_eq (x y : number) : bool := SFeqb x y.

(** [Math.round]: the nearest integer, ties towards +Infinity; the sign of
    zero is kept for results that round to zero from below. *)
Definition round (x : number) : number :=
  match x with
  | S754_finite s m e =>
      if 0 <=? e then x
      else
        let k := - e in
        let n := Z.shiftr (cond_Zopp s (Zpos m) + 2 ^ (k - 1)) k in
        if n =? 0 then S754_zero s else of_Z n
  | _ => x
  end.

(** ** Reading numbers from text *)

Definition digit_val (c : N) : Z := Z.of_N c - 48.

Fixpoint digits_val (acc : Z) (s : jsstring) : Z :=
  match s with
  | [] => acc
  | c :: s' => digits_val (acc * 10 + digit_val c) s'
  end.

(** The longest prefix of decimal digits and what follows it. *)
Fixpoint span_digits (s : jsstring) : jsstring * jsstring :=
  match s with
  | c :: s' =>
      if is_digit c then let '(d, r) := span_digits s' in (c :: d, r)
      else ([], s)
  | [] => ([], [])
  end.

Definition read_sign (s : jsstring) : bool * jsstring :=
  match s with
  | 45%N :: s' => (true, s')
  | 43%N :: s' => (false, s')
  | _ => (false, s)
  end.

(** The exponent part [e|E (+|-)? digits] when it is there. *)
Definition read_exponent (s : jsstring) : Z :=
  match s with
  | c :: s' =>
      if (N.eqb c 101 || N.eqb c 69)%bool then
        let '(neg, s'') := read_sign s' in
        match span_digits s'' with
        | ([], _) => 0
        | (ds, _) => cond_Zopp neg (digits_val 0 ds)
        end
      else 0
  | [] => 0
  end.

(** [parseFloat(s)]: leading white space is skipped, then the longest
    prefix that is a StrDecimalLiteral is converted; NaN when there is
    none. *)
Definition parseFloat (s : jsstring) : number :=
  let '(neg, s1) := read_sign (trimStart s) in
  if startsWith s1 (str "Infinity") then infinity neg
  else
    let '(ip, s2) := span_digits s1 in
    let '(fp, s3) :=
      match s2 with
      | 46%N :: s2' => span_digits s2'
      | _ => ([], s2)
      end in
    match ip, fp with
    | [], [] => NaN
    | _, _ =>
        of_decimal neg (digits_val 0 (ip ++ fp))
          (read_exponent s3 - Z.of_nat (List.length fp))
    end.

(** [parseInt(s, 10)]: leading white space is skipped, a sign is read,
    then the longest prefix of decimal digits; NaN when it is empty. *)
Definition parseInt10 (s : jsstring) : number :=
  let '(neg, s1) := read_sign (trimStart s) in
  match span_digits s1 with
  | ([], _) => NaN
  | (ds, _) => of_decimal neg (digits_val 0 ds) 0
  end.

End JsNumber.
Export JsNumber.

(* ================================================================== *)
(** * helpers.ts: the numeric normalisation helpers *)
(* ================================================================== *)

Module Numeric.

(** [parsePrice(priceStr: string | undefined | null): number | undefined].
    The argument [None] is [undefined] or [null]; the result [None] is
    [undefined].
<<
    if (!priceStr) return undefined
    const cleaned = priceStr.replace(/[^0-9.,]/g, '').replace(',', '.')
    const price = parseFloat(cleaned)
    return isNaN(price) ? undefined : price
>> *)
Definition price_char (c : N) : bool :=
  (is_digit c || N.eqb c 46 || N.eqb c 44)%bool.

Definition parsePrice (priceStr : option jsstring) : option number :=
  match priceStr with
  | None | Some [] => None
  | Some s =>
      let cleaned :=
        replace_first (str ",") (str ".")
          (delete_all (fun c => negb (price_char c)) s) in
      let price := parseFloat cleaned in
      if is_nan price then None else Some price
  end.

(** [parseAbbreviatedNumber(str: string): number]
<<
    const cleaned = str.toLowerCase().trim()
    if (cleaned.endsWith('k')) {
      return Math.round(parseFloat(cleaned.replace('k', '')) * 1000) }
    if (cleaned.endsWith('m')) {
      return Math.round(parseFloat(cleaned.replace('m', '')) * 1000000) }
    if (cleaned.endsWith('b')) {
      return Math.round(parseFloat(cleaned.replace('b', '')) * 1000000000) }
    return parseInt(cleaned.replace(/[,.\s]/g, ''), 10) || 0
>> *)
Definition separator_char (c : N) : bool :=
  (N.eqb c 44 || N.eqb c 46 || is_whitespace c)%bool.

Definition parseAbbreviatedNumber (s : jsstring) : number :=
  let cleaned := trim (toLowerCase s) in
  if endsWith cleaned (str "k") then
    round (mul (parseFloat (replace_first (str "k") [] cleaned)) (of_Z 1000))
  else if endsWith cleaned (str "m") then
    round (mul (parseFloat (replace_first (str "m") [] cleaned)) (of_Z 1000000))
  else if endsWith cleaned (str "b") then
    round (mul (parseFloat (replace_first (str "b") [] cleaned)) (of_Z 1000000000))
  else
    let n := parseInt10 (delete_all separator_char cleaned) in
    if truthy n then n else of_Z 0.

End Numeric.
Export Numeric.

(* ================================================================== *)
(** * Regular expressions *)
(* ================================================================== *)

Module JsRegExp.

(** The pattern language the repository uses: literals, [.], classes,
    [^] and [$] (no multiline flag), groups, alternation and greedy or
    lazy quantifiers; flags [i], [s] and [g]. *)
Inductive class_item :=
| CRange (lo hi : N)
| CDigit (neg : bool)
| CSpace (neg : bool)
| CWord (neg : bool).

Inductive regex :=
| REmpty
| RChar (c : N)
| RAny
| RClass (neg : bool) (items : list class_item)
| RBol
| REol
| RSeq (a b : regex)
| RAlt (a b : regex)
| RRepeat (mn : nat) (mx : option nat) (greedy : bool) (r : regex)
| RGroup (i : nat) (r : regex).

Record flags := { ignoreCase : bool; dotAll : bool; global : bool }.

(** ** Matching: the backtracking semantics of ECMA-262, 22.2.2 *)

Record mstate := { rest : jsstring; pos : nat; caps : list (nat * jsstring) }.

Definition advance (x : mstate) : mstate :=
  {| rest := tl (rest x); pos := S (pos x); caps := caps x |}.

Definition set_cap (i : nat) (s : jsstring) (x : mstate) : mstate :=
  {| rest := rest x; pos := pos x;
     caps := (i, s) :: List.filter (fun c => negb (Nat.eqb (fst c) i)) (caps x) |}.

Fixpoint get_cap (i : nat) (cs : list (nat * jsstring)) : option jsstring :=
  match cs with
  | [] => None
  | (j, s) :: cs' => if Nat.eqb i j then Some s else get_cap i cs'
  end.

Fixpoint groups_of (r : regex) : list nat :=
  match r with
  | RSeq a b | RAlt a b => groups_of a ++ groups_of b
  | RRepeat _ _ _ r' => groups_of r'
  | RGroup i r' => i :: groups_of r'
  | _ => []
  end.

Definition clear_caps (gs : list nat) (x : mstate) : mstate :=
  {| rest := rest x; pos := pos x;
     caps := List.filter (fun c => negb (existsb (Nat.eqb (fst c)) gs)) (caps x) |}.

(** Canonicalize for the [i] flag.  Every pattern of the repository is
    ASCII, and a code unit of 128 or more never canonicalises to a code
    unit below 128, so only the ASCII letters need folding. *)
Definition canon (c : N) : N := if in_range 97 122 c then (c - 32)%N else c.

Definition toggle_case (c : N) : N :=
  if in_range 97 122 c then (c - 32)%N
  else if in_range 65 90 c then (c + 32)%N else c.

Definition item_has (it : class_item) (c : N) : bool :=
  match it with
  | CRange lo hi => in_range lo hi c
  | CDigit neg => xorb neg (is_digit c)
  | CSpace neg => xorb neg (is_whitespace c)
  | CWord neg => xorb neg (is_word_char c)
  end.

Section Matcher.
Variable fl : flags.

Definition char_matches (a c : N) : bool :=
    if ignoreCase fl then N.eqb (canon a) (canon c) else N.eqb a c.

Definition class_has (items : list class_item) (c : N) : bool :=
    existsb (fun it =>
      item_has it c || (ignoreCase fl && item_has it (toggle_case c)))%bool items.

Definition step_if (ok : N -> bool) (k : mstate -> option mstate)
      (x : mstate) : option mstate :=
    match rest x with
    | c :: _ => if ok c then k (advance x) else None
    | [] => None
    end.

  (** [rmatch r k x]: match [r] at state [x], then the continuation [k];
      [None] is failure.  [RRepeat] is RepeatMatcher: an iteration that
      matches the empty string once the minimum is reached is rejected,
      and the captures of the body are reset at each iteration. *)
Fixpoint rmatch (r : regex) (k : mstate -> option mstate) (x : mstate)
      {struct r} : option mstate :=
    match r with
    | REmpty => k x
    | RChar a => step_if (char_matches a) k x
    | RAny => step_if (fun c => dotAll fl || negb (is_line_terminator c))%bool k x
    | RClass neg items => step_if (fun c => xorb neg (class_has items c)) k x
    | RBol => if Nat.eqb (pos x) 0 then k x else None
    | REol => match rest x with [] => k x | _ => None end
    | RSeq a b => rmatch a (fun y => rmatch b k y) x
    | RAlt a b =>
        match rmatch a k x with
        | Some z => Some z
        | None => rmatch b k x
        end
    | RGroup i r' =>
        rmatch r' (fun y => k (set_cap i (firstn (pos y - pos x) (rest x)) y)) x
    | RRepeat mn0 mx0 greedy r' =>
        let gs := groups_of r' in
        (fix rep (fuel mn : nat) (mx : option nat) (x : mstate) {struct fuel}
           : option mstate :=
           match fuel with
           | O => None
           | S fuel' =>
               match mx with
               | Some O => k x
               | _ =>
                   let d := fun y : mstate =>
                     if (Nat.eqb mn 0 && Nat.eqb (pos y) (pos x))%bool then None
                     else rep fuel' (Nat.pred mn) (option_map Nat.pred mx) y in
                   let xr := clear_caps gs x in
                   if negb (Nat.eqb mn 0) then rmatch r' d xr
                   else if greedy then
                     match rmatch r' d xr with
                     | Some z => Some z
                     | None => k x
                     end
                   else
                     match k x with
                     | Some z => Some z
                     | None => rmatch r' d xr
                     end
               end
           end) (S (mn0 + List.length (rest x)))%nat mn0 mx0 x
    end.

  (** The first index from [i] on at which [r] matches, with the final
      state of that match. *)
Fixpoint search (r : regex) (s : jsstring) (i : nat) : option (nat * mstate) :=
    match rmatch r Some {| rest := s; pos := i; caps := [] |} with
    | Some z => Some (i, z)
    | None =>
        match s with
        | [] => None
        | _ :: s' => search r s' (S i)
        end
    end.
End Matcher.

(** ** Reading a pattern

    The pattern text of a regular expression literal is parsed into
    [regex]; capturing groups are numbered from 1 in the order of their
    opening parentheses.  Constructs the sources never use (look-around,
    back-references, word boundaries, named groups) are not accepted. *)

Definition escape_item (c : N) : option class_item :=
  match c with
  | 100%N => Some (CDigit false)    (* \d *)
  | 68%N => Some (CDigit true)      (* \D *)
  | 115%N => Some (CSpace false)    (* \s *)
  | 83%N => Some (CSpace true)      (* \S *)
  | 119%N => Some (CWord false)     (* \w *)
  | 87%N => Some (CWord true)       (* \W *)
  | _ => None
  end.

(** Escapes that denote one code unit: control escapes and identity
    escapes of punctuation. *)
Definition escape_char (c : N) : option N :=
  match c with
  | 110%N => Some 10%N   (* \n *)
  | 116%N => Some 9%N    (* \t *)
  | 114%N => Some 13%N   (* \r *)
  | 102%N => Some 12%N   (* \f *)
  | 118%N => Some 11%N   (* \v *)
  | _ => if (is_word_char c)%bool then None else Some c
  end.

(** The items of a class up to the closing bracket. *)
Fixpoint parse_class (fuel : nat) (s : jsstring) (acc : list class_item)
  : option (list class_item * jsstring) :=
  match fuel with
  | O => None
  | S fuel' =>
      match s with
      | [] => None
      | 93%N :: s' => Some (rev acc, s')
      | 92%N :: c :: s' =>
          match escape_item c with
          | Some it => parse_class fuel' s' (it :: acc)
          | None =>
              match escape_char c with
              | Some a => parse_class fuel' s' (CRange a a :: acc)
              | None => None
              end
          end
      | 92%N :: [] => None
      | lo :: 45%N :: hi :: s' =>
          if (N.eqb hi 93)%bool then parse_class fuel' (45%N :: hi :: s') (CRange lo lo :: acc)
          else if (N.eqb hi 92)%bool then None
          else parse_class fuel' s' (CRange lo hi :: acc)
      | c :: s' => parse_class fuel' s' (CRange c c :: acc)
      end
  end.

Definition parse_nat (s : jsstring) : option (nat * jsstring) :=
  match span_digits s with
  | ([], _) => None
  | (ds, r) => Some (Z.to_nat (digits_val 0 ds), r)
  end.

(** A quantifier after an atom: (min, max, rest); the laziness mark is
    read by the caller. *)
Definition parse_quantifier (s : jsstring) : option (nat * option nat * jsstring) :=
  match s with
  | 42%N :: s' => Some (O, None, s')
  | 43%N :: s' => Some (1%nat, None, s')
  | 63%N :: s' => Some (O, Some 1%nat, s')
  | 123%N :: s' =>
      match parse_nat s' with
      | Some (n, 125%N :: r) => Some (n, Some n, r)
      | Some (n, 44%N :: 125%N :: r) => Some (n, None, r)
      | Some (n, 44%N :: r) =>
          match parse_nat r with
          | Some (m, 125%N :: r') => Some (n, Some m, r')
          | _ => None
          end
      | _ => None
      end
  | _ => None
  end.

Definition quantified (a : regex) (s : jsstring) : regex * jsstring :=
  match parse_quantifier s with
  | Some (mn, mx, 63%N :: r) => (RRepeat mn mx false a, r)
  | Some (mn, mx, r) => (RRepeat mn mx true a, r)
  | None => (a, s)
  end.

(** Disjunction, alternative and atom; [gi] is the index the next
    capturing group gets. *)
Fixpoint parse_disj (fuel : nat) (s : jsstring) (gi : nat) {struct fuel}
  : option (regex * jsstring * nat) :=
  match fuel with
  | O => None
  | S fuel' =>
      match parse_alt fuel' s gi with
      | Some (a, 124%N :: r, gi') =>
          match parse_disj fuel' r gi' with
          | Some (b, r', gi'') => Some (RAlt a b, r', gi'')
          | None => None
          end
      | other => other
      end
  end
with parse_alt (fuel : nat) (s : jsstring) (gi : nat) {struct fuel}
  : option (regex * jsstring * nat) :=
  match fuel with
  | O => None
  | S fuel' =>
      match s with
      | [] => Some (REmpty, s, gi)
      | 124%N :: _ | 41%N :: _ => Some (REmpty, s, gi)
      | _ =>
          match parse_atom fuel' s gi with
          | Some (a, r, gi') =>
              let '(t, r') := quantified a r in
              match parse_alt fuel' r' gi' with
              | Some (REmpty, r'', gi'') => Some (t, r'', gi'')
              | Some (b, r'', gi'') => Some (RSeq t b, r'', gi'')
              | None => None
              end
          | None => None
          end
      end
  end
with parse_atom (fuel : nat) (s : jsstring) (gi : nat) {struct fuel}
  : option (regex * jsstring * nat) :=
  match fuel with
  | O => None
  | S fuel' =>
      match s with
      | [] => None
      | 40%N :: 63%N :: 58%N :: r =>                       (* (?: *)
          match parse_disj fuel' r gi with
          | Some (a, 41%N :: r', gi') => Some (a, r', gi')
          | _ => None
          end
      | 40%N :: 63%N :: _ => None
      | 40%N :: r =>
          match parse_disj fuel' r (S gi) with
          | Some (a, 41%N :: r', gi') => Some (RGroup gi a, r', gi')
          | _ => None
          end
      | 91%N :: 94%N :: r =>                               (* [^ *)
          match parse_class fuel' r [] with
          | Some (items, r') => Some (RClass true items, r', gi)
          | None => None
          end
      | 91%N :: r =>
          match parse_class fuel' r [] with
          | Some (items, r') => Some (RClass false items, r', gi)
          | None => None
          end
      | 46%N :: r => Some (RAny, r, gi)
      | 94%N :: r => Some (RBol, r, gi)
      | 36%N :: r => Some (REol, r, gi)
      | 92%N :: c :: r =>
          match escape_item c with
          | Some it => Some (RClass false [it], r, gi)
          | None =>
              match escape_char c with
              | Some a => Some (RChar a, r, gi)
              | None => None
              end
          end
      | 92%N :: [] => None
      | 42%N :: _ | 43%N :: _ | 63%N :: _ | 41%N :: _ | 124%N :: _ => None
      | c :: r => Some (RChar c, r, gi)
      end
  end.

Definition parse_pattern (src : jsstring) : option regex :=
  match parse_disj (S (3 * List.length src)) src 1%nat with
  | Some (r, [], _) => Some r
  | _ => None
  end.

(** ** RegExp objects and the string methods that take them *)

Record RegExp := { source : jsstring; re_flags : flags; ast : option regex }.

Definition has_flag (c : ascii) (f : string) : bool :=
  existsb (Ascii.eqb c) (list_ascii_of_string f).

(** The literal [/src/f].  Every literal of the sources parses (see
    [patterns_parse] below); a pattern outside the supported language
    would have no [ast] and never match. *)
Definition regexp (src : jsstring) (f : string) : RegExp :=
  {| source := src;
     re_flags := {| ignoreCase := has_flag "i" f; dotAll := has_flag "s" f;
                    global := has_flag "g" f |};
     ast := parse_pattern src |}.

(** A match: [m_text] is element 0 of the match array, [m_groups] are
    elements 1, 2, ...; an unmatched group is [None] (undefined). *)
Record match_result :=
  { m_index : nat; m_end : nat; m_text : jsstring;
    m_groups : list (option jsstring) }.

Definition group (n : nat) (m : match_result) : option jsstring :=
  nth (Nat.pred n) (m_groups m) None.

(** RegExpBuiltinExec from index [from]. *)
Definition exec_at (re : RegExp) (s : jsstring) (from : nat) : option match_result :=
  match ast re with
  | None => None
  | Some r =>
      if Nat.ltb (List.length s) from then None
      else
        match search (re_flags re) r (skipn from s) from with
        | None => None
        | Some (i, z) =>
            Some {| m_index := i; m_end := pos z;
                    m_text := firstn (pos z - i) (skipn i s);
                    m_groups := List.map (fun g => get_cap g (caps z))
                                  (seq 1 (List.length (groups_of r))) |}
        end
  end.

(** [s.match(re)] and [re.exec(s)] for a regular expression without the
    [g] flag: the first match. *)
Definition str_match (s : jsstring) (re : RegExp) : option match_result :=
  exec_at re s 0.

(** [re.test(s)], [re] without the [g] flag. *)
Definition test (re : RegExp) (s : jsstring) : bool :=
  match exec_at re s 0 with Some _ => true | None => false end.

(** [while ((match = re.exec(s)) !== null) ...] for a [g] regular
    expression: the successive matches, each search starting where the
    previous match ended.  The loops of the sources use patterns whose
    matches are never empty. *)
Fixpoint exec_loop (fuel : nat) (re : RegExp) (s : jsstring) (from : nat)
  : list match_result :=
  match fuel with
  | O => []
  | S fuel' =>
      match exec_at re s from with
      | None => []
      | Some m => m :: exec_loop fuel' re s (m_end m)
      end
  end.

Definition exec_all (re : RegExp) (s : jsstring) : list match_result :=
  exec_loop (S (List.length s)) re s 0.

(** [s.replace(re, f)] for a [g] regular expression and a replacer
    function; after an empty match the search resumes one code unit
    further. *)
Fixpoint replace_loop (fuel : nat) (re : RegExp) (f : match_result -> jsstring)
    (s : jsstring) (from done : nat) : jsstring :=
  match fuel with
  | O => skipn done s
  | S fuel' =>
      match exec_at re s from with
      | None => skipn done s
      | Some m =>
          let next := if Nat.eqb (m_end m) (m_index m) then S (m_end m) else m_end m in
          firstn (m_index m - done) (skipn done s) ++ f m
            ++ replace_loop fuel' re f s next (m_end m)
      end
  end.

Definition replace_all (re : RegExp) (f : match_result -> jsstring) (s : jsstring)
  : jsstring :=
  replace_loop (S (S (List.length s))) re f s 0 0.

End JsRegExp.
Export JsRegExp.

(* ================================================================== *)
(** * Values, completions, conversions *)
(* ================================================================== *)

Module JsValue.

(** The values the helpers and the extraction routines handle: the
    primitives, arrays, and plain objects as the list of their own
    properties in enumeration order. *)
Inductive value :=
| VUndefined
| VNull
| VBool (b : bool)
| VNum (n : number)
| VStr (s : jsstring)
| VArr (items : list value)
| VObj (props : list (jsstring * value)).

Definition object := list (jsstring * value).

(** What a [throw] carries: an [Error] with its message, or any other
    value.  The message texts of the errors the platform raises are
    implementation-defined; the model fixes one per kind. *)
Inductive thrown :=
| ErrorObj (message : jsstring)
| Thrown (v : value).

Inductive completion (A : Type) :=
| Normal (a : A)
| Throw (e : thrown).
Arguments Normal {A} a.
Arguments Throw {A} e.

Definition bind {A B} (c : completion A) (f : A -> completion B) : completion B :=
  match c with
  | Normal a => f a
  | Throw e => Throw e
  end.

(** [try { body } catch (e) { handler }] *)
Definition try_catch {A} (body : completion A) (handler : thrown -> completion A)
  : completion A :=
  match body with
  | Normal a => Normal a
  | Throw e => handler e
  end.

Definition type_error : thrown := ErrorObj (str "TypeError").
Definition syntax_error : thrown := ErrorObj (str "SyntaxError").

(** ** Own properties *)

Fixpoint lookup (k : jsstring) (o : object) : option value :=
  match o with
  | [] => None
  | (k', v) :: o' => if JsString.eqb k k' then Some v else lookup k o'
  end.

(** [o[k] = v]: an existing property keeps its place, a new one goes
    last. *)
Fixpoint set_prop (k : jsstring) (v : value) (o : object) : object :=
  match o with
  | [] => [(k, v)]
  | (k', v') :: o' =>
      if JsString.eqb k k' then (k, v) :: o' else (k', v') :: set_prop k v o'
  end.

(** [delete o[k]] *)
Definition delete_prop (k : jsstring) (o : object) : object :=
  List.filter (fun p => negb (JsString.eqb k (fst p))) o.

(** [o[k]] as an expression: [undefined] when [k] is not a property. *)
Definition get (k : jsstring) (o : object) : value :=
  match lookup k o with
  | Some v => v
  | None => VUndefined
  end.

(** [ToBoolean] *)
Definition truthy (v : value) : bool :=
  match v with
  | VUndefined | VNull => false
  | VBool b => b
  | VNum n => JsNumber.truthy n
  | VStr [] => false
  | VStr _ | VArr _ | VObj _ => true
  end.

(** [a || b] *)
Definition or_else (a b : value) : value := if truthy a then a else b.

Definition of_option (o : option jsstring) : value :=
  match o with
  | Some s => VStr s
  | None => VUndefined
  end.

(** [v[k]] for a value that came out of [JSON.parse] and a property name
    [k] that no prototype defines (every name the sources read: [name],
    [offers], [price], [@type], ...): the own property of an object,
    [undefined] on the other values; reading a property of [undefined]
    or [null] throws. *)
Definition get_named (v : value) (k : jsstring) : completion value :=
  match v with
  | VUndefined | VNull => Throw type_error
  | VObj o => Normal (get k o)
  | _ => Normal VUndefined
  end.

(** [v[0]]: the first element of an array, the first code unit of a
    string, the property [0] of an object. *)
Definition get_index0 (v : value) : completion value :=
  match v with
  | VUndefined | VNull => Throw type_error
  | VArr (x :: _) => Normal x
  | VStr (c :: _) => Normal (VStr [c])
  | VObj o => Normal (get (str "0") o)
  | _ => Normal VUndefined
  end.

Definition isArray (v : value) : bool :=
  match v with VArr _ => true | _ => false end.

(** [a === b] for a string literal [b] *)
Definition is_string (v : value) (s : jsstring) : bool :=
  match v with
  | VStr s' => JsString.eqb s' s
  | _ => false
  end.

(** [v.includes(s)] for a string [s]: substring test on a string,
    membership on an array; any other receiver has no such method and
    the call throws. *)
Definition call_includes (v : value) (s : jsstring) : completion bool :=
  match v with
  | VStr t => Normal (JsString.includes t s)
  | VArr l => Normal (existsb (fun x => is_string x s) l)
  | _ => Throw type_error
  end.

End JsValue.
Export JsValue.

Notation "x <- c ;; k" := (bind c (fun x => k))
  (at level 61, c at next level, right associativity).

(* ================================================================== *)
(** * Number to string, value to string *)
(* ================================================================== *)

Module JsConvert.

Fixpoint dec_digits (fuel : nat) (z : Z) (acc : jsstring) : jsstring :=
  match fuel with
  | O => acc
  | S fuel' =>
      if z <? 10 then Z.to_N (48 + z) :: acc
      else dec_digits fuel' (z / 10) (Z.to_N (48 + z mod 10) :: acc)
  end.

(** The decimal digits of a non-negative integer. *)
Definition digits_of_Z (z : Z) : jsstring :=
  dec_digits (S (Z.to_nat (Z.log2 z))) z [].

Fixpoint first_scale (fuel : nat) (num den : Z) (j : Z) : Z :=
  match fuel with
  | O => j
  | S fuel' => if den <=? num * 10 ^ j then j else first_scale fuel' num den (j + 1)
  end.

(** [n] with [10^(n-1) <= num/den < 10^n]. *)
Definition magnitude (num den : Z) : Z :=
  if den <=? num then Z.of_nat (List.length (digits_of_Z (num / den)))
  else 1 - first_scale 400 num den 1.

(** Number::toString, step 5 of ECMA-262 6.1.6.1.20: the shortest digit
    string [s] of [k] digits with [s * 10^(n-k)] converting back to the
    number; of two candidates the closer one, the even one on a tie. *)
Fixpoint shortest (fuel : nat) (k : Z) (x : number) (num den n : Z)
  : Z * Z * Z :=
  match fuel with
  | O => (0, 1, n)
  | S fuel' =>
      let scale := n - k in
      let a := if scale <? 0 then num * 10 ^ (- scale) else num in
      let d := if scale <? 0 then den else den * 10 ^ scale in
      let lo := a / d in
      let r := a mod d in
      let hi := lo + 1 in
      let ok s := (0 <? s) && SFeqb (of_decimal false s scale) x in
      let pick :=
        match ok lo, ok hi with
        | true, true =>
            match 2 * r ?= d with
            | Lt => Some lo
            | Gt => Some hi
            | Eq => Some (if Z.even lo then lo else hi)
            end
        | true, false => Some lo
        | false, true => Some hi
        | false, false => None
        end in
      match pick with
      | Some s => if s =? 10 ^ k then (1, 1, n + 1) else (s, k, n)
      | None => shortest fuel' (k + 1) x num den n
      end
  end.

Definition zeros (n : Z) : jsstring := repeat 48%N (Z.to_nat n).

Definition number_to_string (x : number) : jsstring :=
  match x with
  | S754_nan => str "NaN"
  | S754_zero _ => str "0"
  | S754_infinity neg => (if neg then str "-" else []) ++ str "Infinity"
  | S754_finite neg m e =>
      let num := if 0 <=? e then Zpos m * 2 ^ e else Zpos m in
      let den := if 0 <=? e then 1 else 2 ^ (- e) in
      let '(s, k, n) :=
        shortest 17 1 (S754_finite false m e) num den (magnitude num den) in
      let ds := digits_of_Z s in
      let body :=
        if (k <=? n) && (n <=? 21) then ds ++ zeros (n - k)
        else if (0 <? n) && (n <=? 21) then
          firstn (Z.to_nat n) ds ++ str "." ++ skipn (Z.to_nat n) ds
        else if (-6 <? n) && (n <=? 0) then str "0." ++ zeros (- n) ++ ds
        else
          let ex := n - 1 in
          let es := (if ex <? 0 then str "-" else str "+") ++ digits_of_Z (Z.abs ex) in
          if k =? 1 then ds ++ str "e" ++ es
          else firstn 1 ds ++ str "." ++ skipn 1 ds ++ str "e" ++ es in
      (if neg then str "-" else []) ++ body
  end.

Definition has_own (k : jsstring) (o : object) : bool :=
  match lookup k o with Some _ => true | None => false end.

(** [ToString(v)] for a value that came out of [JSON.parse].  An array
    joins its elements with commas ([null] as the empty string); an
    object is [[object Object]], unless it has an own property
    [toString], which is not callable and leaves OrdinaryToPrimitive
    without a primitive: a TypeError. *)
Fixpoint to_string (v : value) : completion jsstring :=
  match v with
  | VUndefined => Normal (str "undefined")
  | VNull => Normal (str "null")
  | VBool true => Normal (str "true")
  | VBool false => Normal (str "false")
  | VNum n => Normal (number_to_string n)
  | VStr s => Normal s
  | VArr items =>
      (fix join (first : bool) (l : list value) : completion jsstring :=
         match l with
         | [] => Normal []
         | x :: l' =>
             s <- match x with
                  | VUndefined | VNull => Normal []
                  | _ => to_string x
                  end ;;
             r <- join false l' ;;
             Normal ((if first then [] else str ",") ++ s ++ r)
         end) true items
  | VObj o =>
      if has_own (str "toString") o then Throw type_error
      else Normal (str "[object Object]")
  end.

(** [parseFloat(v)] and [parseInt(v, 10)] on any value: the argument is
    converted with [ToString] first. *)
Definition parseFloat_of (v : value) : completion number :=
  s <- to_string v ;; Normal (parseFloat s).

Definition parseInt_of (v : value) : completion number :=
  s <- to_string v ;; Normal (parseInt10 s).

End JsConvert.
Export JsConvert.

(* ================================================================== *)
(** * JSON.parse *)
(* ================================================================== *)

Module Json.

Definition is_json_ws (c : N) : bool :=
  (N.eqb c 32 || N.eqb c 9 || N.eqb c 10 || N.eqb c 13)%bool.

Fixpoint skip_ws (s : jsstring) : jsstring :=
  match s with
  | c :: s' => if is_json_ws c then skip_ws s' else s
  | [] => []
  end.

Definition hex_val (c : N) : option N :=
  if is_digit c then Some (c - 48)%N
  else if in_range 97 102 c then Some (c - 87)%N
  else if in_range 65 70 c then Some (c - 55)%N
  else None.

Definition hex4 (a b c d : N) : option N :=
  match hex_val a, hex_val b, hex_val c, hex_val d with
  | Some x, Some y, Some z, Some w => Some (((x * 16 + y) * 16 + z) * 16 + w)%N
  | _, _, _, _ => None
  end.

Definition simple_escape (c : N) : option N :=
  match c with
  | 34%N => Some 34%N     (* quote *)
  | 92%N => Some 92%N     (* backslash *)
  | 47%N => Some 47%N     (* slash *)
  | 98%N => Some 8%N      (* b *)
  | 102%N => Some 12%N    (* f *)
  | 110%N => Some 10%N    (* n *)
  | 114%N => Some 13%N    (* r *)
  | 116%N => Some 9%N     (* t *)
  | _ => None
  end.

(** The characters of a string literal after the opening quote. *)
Fixpoint parse_chars (s : jsstring) (acc : jsstring) {struct s}
  : option (jsstring * jsstring) :=
  match s with
  | [] => None
  | 34%N :: s' => Some (rev acc, s')
  | 92%N :: 117%N :: a :: b :: c :: d :: s' =>
      match hex4 a b c d with
      | Some u => parse_chars s' (u :: acc)
      | None => None
      end
  | 92%N :: e :: s' =>
      match simple_escape e with
      | Some u => parse_chars s' (u :: acc)
      | None => None
      end
  | c :: s' => if N.ltb c 32 then None else parse_chars s' (c :: acc)
  end.

(** A number literal: an optional minus, an integer part without a
    leading zero (or a lone zero), an optional fraction with at least one
    digit, an optional exponent with at least one digit. *)
Definition parse_number (s : jsstring) : option (number * jsstring) :=
  let '(neg, s1) := match s with 45%N :: s' => (true, s') | _ => (false, s) end in
  let '(ip, s2) := span_digits s1 in
  match ip with
  | [] => None
  | 48%N :: _ :: _ => None
  | _ =>
      let frac :=
        match s2 with
        | 46%N :: s2' =>
            match span_digits s2' with
            | ([], _) => None
            | (fp, s3) => Some (fp, s3)
            end
        | _ => Some ([], s2)
        end in
      match frac with
      | None => None
      | Some (fp, s3) =>
          let ex :=
            match s3 with
            | c :: s3' =>
                if (N.eqb c 101 || N.eqb c 69)%bool then
                  let '(eneg, s4) := read_sign s3' in
                  match span_digits s4 with
                  | ([], _) => None
                  | (ds, s5) => Some (cond_Zopp eneg (digits_val 0 ds), s5)
                  end
                else Some (0, s3)
            | [] => Some (0, s3)
            end in
          match ex with
          | None => None
          | Some (e, r) =>
              Some (of_decimal neg (digits_val 0 (ip ++ fp))
                      (e - Z.of_nat (List.length fp)), r)
          end
      end
  end.

(** A value, with the text after it.  [elements] and [members] read the
    rest of an array or object after its first item. *)
Fixpoint parse_value (fuel : nat) (s : jsstring) {struct fuel}
  : option (value * jsstring) :=
  match fuel with
  | O => None
  | S fuel' =>
      match skip_ws s with
      | 110%N :: 117%N :: 108%N :: 108%N :: r => Some (VNull, r)
      | 116%N :: 114%N :: 117%N :: 101%N :: r => Some (VBool true, r)
      | 102%N :: 97%N :: 108%N :: 115%N :: 101%N :: r => Some (VBool false, r)
      | 34%N :: r =>
          match parse_chars r [] with
          | Some (t, r') => Some (VStr t, r')
          | None => None
          end
      | 91%N :: r =>
          match skip_ws r with
          | 93%N :: r' => Some (VArr [], r')
          | _ =>
              match parse_elements fuel' r with
              | Some (l, r') => Some (VArr l, r')
              | None => None
              end
          end
      | 123%N :: r =>
          match skip_ws r with
          | 125%N :: r' => Some (VObj [], r')
          | _ =>
              match parse_members fuel' r [] with
              | Some (o, r') => Some (VObj o, r')
              | None => None
              end
          end
      | t => match parse_number t with
             | Some (n, r) => Some (VNum n, r)
             | None => None
             end
      end
  end
with parse_elements (fuel : nat) (s : jsstring) {struct fuel}
  : option (list value * jsstring) :=
  match fuel with
  | O => None
  | S fuel' =>
      match parse_value fuel' s with
      | Some (v, r) =>
          match skip_ws r with
          | 93%N :: r' => Some ([v], r')
          | 44%N :: r' =>
              match parse_elements fuel' r' with
              | Some (l, r'') => Some (v :: l, r'')
              | None => None
              end
          | _ => None
          end
      | None => None
      end
  end
with parse_members (fuel : nat) (s : jsstring) (acc : object) {struct fuel}
  : option (object * jsstring) :=
  match fuel with
  | O => None
  | S fuel' =>
      match skip_ws s with
      | 34%N :: r =>
          match parse_chars r [] with
          | Some (k, r1) =>
              match skip_ws r1 with
              | 58%N :: r2 =>
                  match parse_value fuel' r2 with
                  | Some (v, r3) =>
                      let acc' := set_prop k v acc in
                      match skip_ws r3 with
                      | 125%N :: r4 => Some (acc', r4)
                      | 44%N :: r4 => parse_members fuel' r4 acc'
                      | _ => None
                      end
                  | None => None
                  end
              | _ => None
              end
          | None => None
          end
      | _ => None
      end
  end.

(** [JSON.parse(text)]; text that is not JSON throws a SyntaxError. *)
Definition JSON_parse (text : jsstring) : completion value :=
  match parse_value (S (2 * List.length text)) text with
  | Some (v, r) =>
      match skip_ws r with
      | [] => Normal v
      | _ => Throw syntax_error
      end
  | None => Throw syntax_error
  end.

End Json.
Export Json.

(* ================================================================== *)
(** * helpers.ts: readers of the payload *)
(* ================================================================== *)

Module Helpers.

Definition title_re : RegExp := regexp (str "<title[^>]*>([^<]+)<\/title>") "i".

Definition metaRegex : RegExp :=
  regexp (q "<meta\s+(?:[^>]*?\s+)?(?:name|property)=[`']([^`']+)[`'][^>]*?\s+content=[`']([^`']+)[`']") "gi".

Definition metaRegex2 : RegExp :=
  regexp (q "<meta\s+(?:[^>]*?\s+)?content=[`']([^`']+)[`'][^>]*?\s+(?:name|property)=[`']([^`']+)[`']") "gi".

Definition group_or_empty (n : nat) (m : match_result) : jsstring :=
  match group n m with Some s => s | None => [] end.

(** [extractMetaTags(html)]: the page title under [title], then every
    meta tag, keyed by its lower-cased name; a later tag with the same
    name replaces the earlier one, and the tags with the content
    attribute first are read after all the others.
<<
    const titleMatch = html.match(/<title[^>]*>([^<]+)<\/title>/i)
    if (titleMatch) { meta.title = titleMatch[1].trim() }
    while ((match = metaRegex.exec(html)) !== null) {
      meta[match[1].toLowerCase()] = match[2] }
    while ((match = metaRegex2.exec(html)) !== null) {
      meta[match[2].toLowerCase()] = match[1] }
    return meta
>> *)
Definition extractMetaTags (html : jsstring) : object :=
  let meta0 : object :=
    match str_match html title_re with
    | Some m => set_prop (str "title") (VStr (trim (group_or_empty 1 m))) []
    | None => []
    end in
  let meta1 :=
    fold_left (fun meta m =>
        set_prop (toLowerCase (group_or_empty 1 m)) (VStr (group_or_empty 2 m)) meta)
      (exec_all metaRegex html) meta0 in
  fold_left (fun meta m =>
      set_prop (toLowerCase (group_or_empty 2 m)) (VStr (group_or_empty 1 m)) meta)
    (exec_all metaRegex2 html) meta1.

Definition jsonLdRegex : RegExp :=
  regexp (q "<script[^>]*type=[`']application\/ld\+json[`'][^>]*>([\s\S]*?)<\/script>") "gi".

(** [extractJsonLd(html)]: the parsed content of every JSON-LD script
    element, an array spliced into the result; text that does not parse
    is skipped.
<<
    while ((match = jsonLdRegex.exec(html)) !== null) {
      try {
        const json = JSON.parse(match[1])
        if (Array.isArray(json)) { results.push(...json) }
        else { results.push(json) }
      } catch { }
    }
>> *)
Definition extractJsonLd (html : jsstring) : list value :=
  fold_left (fun results m =>
      match JSON_parse (group_or_empty 1 m) with
      | Normal (VArr items) => results ++ items
      | Normal json => results ++ [json]
      | Throw _ => results
      end)
    (exec_all jsonLdRegex html) [].

(** [extractFirst(html, regex)], [regex] without the [g] flag:
    [html.match(regex)?.[1]?.trim()]. *)
Definition extractFirst (html : jsstring) (regex : RegExp) : option jsstring :=
  match str_match html regex with
  | Some m => option_map trim (group 1 m)
  | None => None
  end.

(** [ToUint16] of a number, for [String.fromCharCode]. *)
Definition to_uint16 (x : number) : N :=
  match x with
  | S754_finite s m e =>
      let a := if 0 <=? e then Zpos m * 2 ^ e else Zpos m / 2 ^ (- e) in
      Z.to_N ((cond_Zopp s a) mod 65536)
  | _ => 0%N
  end.

Definition entities : list (jsstring * jsstring) :=
  [ (str "&amp;", str "&"); (str "&lt;", str "<"); (str "&gt;", str ">");
    (str "&quot;", [34%N]); (str "&#39;", str "'"); (str "&nbsp;", str " ") ].

Fixpoint assoc (k : jsstring) (l : list (jsstring * jsstring)) : option jsstring :=
  match l with
  | [] => None
  | (k', v) :: l' => if JsString.eqb k k' then Some v else assoc k l'
  end.

Definition entity_re : RegExp := regexp (str "&[a-z]+;|&#\d+;") "gi".

(** [decodeHtmlEntities(text)]
<<
    return text.replace(/&[a-z]+;|&#\d+;/gi, (match) => {
      if (entities[match]) return entities[match]
      if (match.startsWith('&#')) {
        const code = parseInt(match.slice(2, -1), 10)
        return String.fromCharCode(code) }
      return match })
>> *)
Definition decode_entity (m : jsstring) : jsstring :=
  match assoc m entities with
  | Some r => r
  | None =>
      if startsWith m (str "&#") then
        [to_uint16 (parseInt10 (removelast (skipn 2 m)))]
      else m
  end.

Definition decodeHtmlEntities (text : jsstring) : jsstring :=
  replace_all entity_re (fun m => decode_entity (m_text m)) text.

Definition ws_run_re : RegExp := regexp (str "\s+") "g".

(** [cleanText(text)]: [text.replace(/\s+/g, ' ').trim()] *)
Definition cleanText (text : jsstring) : jsstring :=
  trim (replace_all ws_run_re (fun _ => str " ") text).

(** What [new URL(url)] gives; the URL parser of the platform is a
    parameter of the model. *)
Record URL := { hostname : jsstring }.

Section WithURL.
Variable new_URL : jsstring -> completion URL.

End WithURL.

End Helpers.
Export Helpers.

(* ================================================================== *)
(** * Idioms shared by the extraction routines *)
(* ================================================================== *)

Module Idioms.

(** [!data[k]] *)
Definition falsy (k : jsstring) (data : object) : bool := negb (truthy (get k data)).

(** [data[k] === undefined] *)
Definition is_undefined (k : jsstring) (data : object) : bool :=
  match get k data with VUndefined => true | _ => false end.

(** [if (s)] for [s: string | undefined] *)
Definition nonempty (o : option jsstring) : option jsstring :=
  match o with
  | Some (c :: s) => Some (c :: s)
  | _ => None
  end.

(** [for (const p of patterns) { const x = f(p); if (x) { ...; break } }]:
    the result for the first pattern that has one. *)
Fixpoint first_some {A} (f : RegExp -> option A) (patterns : list RegExp) : option A :=
  match patterns with
  | [] => None
  | p :: ps =>
      match f p with
      | Some x => Some x
      | None => first_some f ps
      end
  end.

(** [s.replace(re, '')] for a regular expression without the [g] flag. *)
Definition remove_first_match (re : RegExp) (s : jsstring) : jsstring :=
  match exec_at re s 0 with
  | Some m => firstn (m_index m) s ++ skipn (m_end m) s
  | None => s
  end.

(** [s.replace(/,/g, '')] *)
Definition remove_commas (s : jsstring) : jsstring := delete_all (N.eqb 44) s.

(** [for (const ld of jsonLd) body], a body that may throw. *)
Fixpoint for_each (body : value -> object -> completion object)
    (jsonLd : list value) (data : object) : completion object :=
  match jsonLd with
  | [] => Normal data
  | ld :: rest => data' <- body ld data ;; for_each body rest data'
  end.

(** [v?.[k]] and [v?.[0]] *)
Definition opt_named (v : value) (k : jsstring) : completion value :=
  match v with
  | VUndefined | VNull => Normal VUndefined
  | _ => get_named v k
  end.

Definition opt_index0 (v : value) : completion value :=
  match v with
  | VUndefined | VNull => Normal VUndefined
  | _ => get_index0 v
  end.

End Idioms.
Export Idioms.

(* ================================================================== *)
(** * recipes/amazon.ts *)
(* ================================================================== *)

Module Amazon.

Definition asin_re := regexp (q "\/(?:dp|gp\/product|gp\/aw\/d)\/([A-Z0-9]{10})") "i".
Definition productTitle_re := regexp (q "<span[^>]*id=`productTitle`[^>]*>([^<]+)<\/span>") "i".
Definition wholePrice_re := regexp (q "<span[^>]*class=`[^`]*a-price-whole[^`]*`[^>]*>([0-9,]+)<\/span>") "".
Definition fraction_re := regexp (q "<span[^>]*class=`[^`]*a-price-fraction[^`]*`[^>]*>([0-9]+)<\/span>") "".

Definition pricePatterns : list RegExp :=
  [ regexp (q "<span[^>]*class=`[^`]*a-offscreen[^`]*`[^>]*>\s*\$?([0-9,.]+)\s*<\/span>") "i";
    regexp (q "<span[^>]*id=`priceblock_ourprice`[^>]*>([^<]+)<\/span>") "i";
    regexp (q "<span[^>]*id=`priceblock_dealprice`[^>]*>([^<]+)<\/span>") "i";
    regexp (q "<span[^>]*id=`priceblock_saleprice`[^>]*>([^<]+)<\/span>") "i";
    regexp (q "class=`a-price`[^>]*>.*?<span[^>]*>([^<]+)<\/span>") "is" ].

Definition originalPrice_re := regexp (q "<span[^>]*class=`[^`]*a-text-price[^`]*`[^>]*data-a-strike=`true`[^>]*>.*?\$?([0-9,.]+)") "is".
Definition discount_re := regexp (q "<span[^>]*class=`[^`]*savingsPercentage[^`]*`[^>]*>-?(\d+%)<\/span>") "i".

Definition stockPatterns : list RegExp :=
  [ regexp (q "<span[^>]*class=`[^`]*a-color-success[^`]*`[^>]*>([^<]*(?:in stock|available)[^<]*)<\/span>") "i";
    regexp (q "id=`availability`[^>]*>.*?<span[^>]*>([^<]+)<") "is";
    regexp (q "<span[^>]*class=`[^`]*availabilityMessage[^`]*`[^>]*>([^<]+)<\/span>") "i" ].

Definition outOfStockPatterns : list RegExp :=
  [ regexp (q "currently unavailable") "i";
    regexp (q "out of stock") "i";
    regexp (q "not available") "i";
    regexp (q "we don't know when or if this item will be back") "i" ].

Definition rating_re := regexp (q "<span[^>]*class=`[^`]*a-icon-alt[^`]*`[^>]*>([0-9.]+)\s*out\s*of\s*5") "i".

Definition reviewPatterns : list RegExp :=
  [ regexp (q "<span[^>]*id=`acrCustomerReviewText`[^>]*>([0-9,]+)\s*(?:global\s*)?ratings?") "i";
    regexp (q "(\d[\d,]*)\s*(?:global\s*)?(?:ratings?|reviews?)") "i" ].

Definition brandPatterns : list RegExp :=
  [ regexp (q "<a[^>]*id=`bylineInfo`[^>]*>(?:Visit the |Brand: )?([^<]+)<\/a>") "i";
    regexp (q "id=`bylineInfo`[^>]*>([^<]+)<") "i";
    regexp (q "<tr[^>]*class=`[^`]*po-brand[^`]*`[^>]*>.*?<span[^>]*class=`[^`]*po-break-word[^`]*`[^>]*>([^<]+)<\/span>") "is" ].

Definition brandPrefix_re := regexp (q "^(Visit the |Brand: )") "i".
Definition storeSuffix_re := regexp (q " Store$") "".

Definition seller_re := regexp (q "<a[^>]*id=`sellerProfileTriggerId`[^>]*>([^<]+)<\/a>") "i".
Definition soldBy_re := regexp (q "Ships from and sold by\s*<[^>]*>([^<]+)<") "i".
Definition prime_re := regexp (q "id=`[^`]*prime[^`]*`|class=`[^`]*prime[^`]*`|a]data-a-badge-type=`prime`") "i".
Definition deal_re := regexp (q "id=`[^`]*deal[^`]*badge|class=`[^`]*dealBadge|Lightning Deal|Deal of the Day") "i".
Definition coupon_re := regexp (q "Save\s*(?:an\s*extra\s*)?\$?(\d+(?:\.\d+)?%?)\s*(?:with\s*coupon|coupon)") "i".
Definition bsr_re := regexp (q "#([\d,]+)\s*in\s*([^<(]+)") "i".
Definition delivery_re := regexp (q "delivery[^<]*<[^>]*>([^<]*(?:Monday|Tuesday|Wednesday|Thursday|Friday|Saturday|Sunday)[^<]*)<") "i".

Definition imagePatterns : list RegExp :=
  [ regexp (q "<img[^>]*id=`landingImage`[^>]*src=`([^`]+)`") "i";
    regexp (q "<img[^>]*id=`imgBlkFront`[^>]*src=`([^`]+)`") "i";
    regexp (q "<img[^>]*class=`[^`]*a-dynamic-image[^`]*`[^>]*src=`([^`]+)`") "i" ].


(** ** The extraction routine, stage by stage, in source order *)

(** Extract ASIN from URL *)
Definition stage_asin (url : jsstring) (data : object) : object :=
  match str_match url asin_re with
  | Some asinMatch => set_prop (str "asin") (of_option (group 1 asinMatch)) data
  | None => data
  end.

(** The body of [for (const ld of jsonLd)]
<<
    if (ld['@type'] === 'Product') {
      data.title = data.title || ld.name
      data.description = data.description || ld.description
      data.brand = ld.brand?.name || ld.brand
      data.imageUrl = ld.image?.[0] || ld.image
      if (ld.offers) {
        const offer = Array.isArray(ld.offers) ? ld.offers[0] : ld.offers
        if (offer.price) { data.price = parseFloat(offer.price) }
        if (offer.availability) {
          data.inStock = offer.availability.includes('InStock') }
      }
      if (ld.aggregateRating) {
        data.rating = parseFloat(ld.aggregateRating.ratingValue)
        data.reviewCount = parseInt(ld.aggregateRating.reviewCount, 10)
      }
    }
>> *)
Definition jsonld_offers (ld : value) (data : object) : completion object :=
  offers <- get_named ld (str "offers") ;;
  if truthy offers then
    offer <- (if isArray offers then get_index0 offers else Normal offers) ;;
    price <- get_named offer (str "price") ;;
    data <- (if truthy price then
               p <- parseFloat_of price ;;
               Normal (set_prop (str "price") (VNum p) data)
             else Normal data) ;;
    availability <- get_named offer (str "availability") ;;
    if truthy availability then
      b <- call_includes availability (str "InStock") ;;
      Normal (set_prop (str "inStock") (VBool b) data)
    else Normal data
  else Normal data.

Definition jsonld_rating (ld : value) (data : object) : completion object :=
  aggregateRating <- get_named ld (str "aggregateRating") ;;
  if truthy aggregateRating then
    ratingValue <- get_named aggregateRating (str "ratingValue") ;;
    r <- parseFloat_of ratingValue ;;
    let data := set_prop (str "rating") (VNum r) data in
    reviewCount <- get_named aggregateRating (str "reviewCount") ;;
    n <- parseInt_of reviewCount ;;
    Normal (set_prop (str "reviewCount") (VNum n) data)
  else Normal data.

Definition jsonld_product (ld : value) (data : object) : completion object :=
  ty <- get_named ld (str "@type") ;;
  if is_string ty (str "Product") then
    name <- get_named ld (str "name") ;;
    let data := set_prop (str "title") (or_else (get (str "title") data) name) data in
    description <- get_named ld (str "description") ;;
    let data := set_prop (str "description")
                  (or_else (get (str "description") data) description) data in
    brand <- get_named ld (str "brand") ;;
    brand_name <- opt_named brand (str "name") ;;
    let data := set_prop (str "brand") (or_else brand_name brand) data in
    image <- get_named ld (str "image") ;;
    image0 <- opt_index0 image ;;
    let data := set_prop (str "imageUrl") (or_else image0 image) data in
    data <- jsonld_offers ld data ;;
    jsonld_rating ld data
  else Normal data.

(** Try JSON-LD first (most reliable) *)
Definition stage_jsonld (html : jsstring) (data : object) : completion object :=
  for_each jsonld_product (extractJsonLd html) data.

(** Product title *)
Definition stage_title (html : jsstring) (data : object) : object :=
  if falsy (str "title") data then
    match nonempty (extractFirst html productTitle_re) with
    | Some title => set_prop (str "title") (VStr (decodeHtmlEntities (trim title))) data
    | None => data
    end
  else data.

(** Meta tags fallback
<<
    if (!data.title) {
      const meta = extractMetaTags(html)
      data.title = meta['og:title'] || meta['twitter:title'] }
>> *)
Definition stage_title_meta (html : jsstring) (data : object) : object :=
  if falsy (str "title") data then
    let meta := extractMetaTags html in
    set_prop (str "title")
      (or_else (get (str "og:title") meta) (get (str "twitter:title") meta)) data
  else data.

(** Structured price (whole + fraction) *)
Definition stage_price_whole (html : jsstring) (data : object) : object :=
  if falsy (str "price") data then
    let wholePriceMatch := str_match html wholePrice_re in
    let fractionMatch := str_match html fraction_re in
    match wholePriceMatch with
    | Some wm =>
        let whole := remove_commas (group_or_empty 1 wm) in
        let fraction :=
          match fractionMatch with
          | Some fm => group_or_empty 1 fm
          | None => str "00"
          end in
        set_prop (str "price") (VNum (parseFloat (whole ++ str "." ++ fraction))) data
    | None => data
    end
  else data.

(** Price extraction with multiple patterns (fallback)
<<
    if (!data.price) {
      for (const pattern of pricePatterns) {
        const priceStr = extractFirst(html, pattern)
        if (priceStr) {
          const price = parsePrice(priceStr)
          if (price !== undefined && price > 0) { data.price = price; break }
        } } }
>> *)
Definition pattern_price (html : jsstring) (pattern : RegExp) : option number :=
  match nonempty (extractFirst html pattern) with
  | Some priceStr =>
      match parsePrice (Some priceStr) with
      | Some price => if gt price (of_Z 0) then Some price else None
      | None => None
      end
  | None => None
  end.

Definition stage_price_patterns (html : jsstring) (data : object) : object :=
  if falsy (str "price") data then
    match first_some (pattern_price html) pricePatterns with
    | Some price => set_prop (str "price") (VNum price) data
    | None => data
    end
  else data.

Definition of_number (o : option number) : value :=
  match o with
  | Some n => VNum n
  | None => VUndefined
  end.

(** Original/list price *)
Definition stage_original_price (html : jsstring) (data : object) : object :=
  match str_match html originalPrice_re with
  | Some m => set_prop (str "originalPrice") (of_number (parsePrice (group 1 m))) data
  | None => data
  end.

(** Discount percentage *)
Definition stage_discount (html : jsstring) (data : object) : object :=
  match str_match html discount_re with
  | Some m => set_prop (str "discount") (of_option (group 1 m)) data
  | None => data
  end.

(** Stock status *)
Definition stock_signal (stock : jsstring) : bool :=
  let stockLower := toLowerCase stock in
  (includes stockLower (str "in stock") || includes stockLower (str "available")
   || includes stockLower (str "only") || includes stockLower (str "left in stock"))%bool.

Definition stage_stock (html : jsstring) (data : object) : object :=
  if is_undefined (str "inStock") data then
    match first_some (fun p => nonempty (extractFirst html p)) stockPatterns with
    | Some stock => set_prop (str "inStock") (VBool (stock_signal stock)) data
    | None => data
    end
  else data.

(** Out of stock indicators *)
Definition stage_out_of_stock (html : jsstring) (data : object) : object :=
  if is_undefined (str "inStock") data then
    if existsb (fun p => test p html) outOfStockPatterns
    then set_prop (str "inStock") (VBool false) data
    else data
  else data.

(** Default to in stock if we found a price *)
Definition stage_default_stock (data : object) : object :=
  if (is_undefined (str "inStock") data && negb (is_undefined (str "price") data))%bool
  then set_prop (str "inStock") (VBool true) data
  else data.

(** Rating *)
Definition stage_rating (html : jsstring) (data : object) : object :=
  if falsy (str "rating") data then
    match str_match html rating_re with
    | Some m => set_prop (str "rating") (VNum (parseFloat (group_or_empty 1 m))) data
    | None => data
    end
  else data.

(** Review count *)
Definition stage_reviews (html : jsstring) (data : object) : object :=
  if falsy (str "reviewCount") data then
    match first_some (str_match html) reviewPatterns with
    | Some m =>
        set_prop (str "reviewCount")
          (VNum (parseInt10 (remove_commas (group_or_empty 1 m)))) data
    | None => data
    end
  else data.

(** Brand *)
Definition clean_brand (brand : jsstring) : jsstring :=
  decodeHtmlEntities
    (remove_first_match storeSuffix_re (remove_first_match brandPrefix_re (trim brand))).

Definition stage_brand (html : jsstring) (data : object) : object :=
  if falsy (str "brand") data then
    match first_some (fun p => nonempty (extractFirst html p)) brandPatterns with
    | Some brand => set_prop (str "brand") (VStr (clean_brand brand)) data
    | None => data
    end
  else data.

(** Seller *)
Definition stage_seller (html : jsstring) (data : object) : object :=
  match str_match html seller_re with
  | Some m =>
      set_prop (str "seller") (VStr (decodeHtmlEntities (trim (group_or_empty 1 m)))) data
  | None =>
      match str_match html soldBy_re with
      | Some m =>
          set_prop (str "seller") (VStr (decodeHtmlEntities (trim (group_or_empty 1 m)))) data
      | None => data
      end
  end.

(** Prime eligibility and deal badge: assigned on every run. *)
Definition stage_prime (html : jsstring) (data : object) : object :=
  set_prop (str "isPrime") (VBool (test prime_re html)) data.

Definition stage_deal (html : jsstring) (data : object) : object :=
  set_prop (str "isDeal") (VBool (test deal_re html)) data.

(** Coupon *)
Definition stage_coupon (html : jsstring) (data : object) : object :=
  match str_match html coupon_re with
  | Some m =>
      let c := group_or_empty 1 m in
      set_prop (str "coupon") (VStr (if includes c (str "%") then c else str "$" ++ c)) data
  | None => data
  end.

(** Best Seller Rank *)
Definition stage_bsr (html : jsstring) (data : object) : object :=
  match str_match html bsr_re with
  | Some m =>
      let data := set_prop (str "bestSellerRank")
                    (VNum (parseInt10 (remove_commas (group_or_empty 1 m)))) data in
      set_prop (str "category") (VStr (trim (group_or_empty 2 m))) data
  | None => data
  end.

(** Delivery date *)
Definition stage_delivery (html : jsstring) (data : object) : object :=
  match str_match html delivery_re with
  | Some m =>
      set_prop (str "deliveryDate")
        (VStr (decodeHtmlEntities (trim (group_or_empty 1 m)))) data
  | None => data
  end.

(** Product image *)
Definition stage_image (html : jsstring) (data : object) : object :=
  if falsy (str "imageUrl") data then
    match first_some (str_match html) imagePatterns with
    | Some m => set_prop (str "imageUrl") (of_option (group 1 m)) data
    | None => data
    end
  else data.

(** Everything after the JSON-LD loop; nothing there throws. *)
Definition after_jsonld (html : jsstring) (data : object) : object :=
  let data := stage_title html data in
  let data := stage_title_meta html data in
  let data := stage_price_whole html data in
  let data := stage_price_patterns html data in
  let data := stage_original_price html data in
  let data := stage_discount html data in
  let data := stage_stock html data in
  let data := stage_out_of_stock html data in
  let data := stage_default_stock data in
  let data := stage_rating html data in
  let data := stage_reviews html data in
  let data := stage_brand html data in
  let data := stage_seller html data in
  let data := stage_prime html data in
  let data := stage_deal html data in
  let data := stage_coupon html data in
  let data := stage_bsr html data in
  let data := stage_delivery html data in
  stage_image html data.

(** [amazonRecipe.extract(html, url)]; the completion is the settled
    promise. *)
Definition extract (html url : jsstring) : completion object :=
  data <- stage_jsonld html (stage_asin url []) ;;
  Normal (after_jsonld html data).

End Amazon.

(* ================================================================== *)
(** * recipes/ebay.ts: the URL stage and the JSON-LD stage *)
(* ================================================================== *)

Module Ebay.

Definition itemId_re := regexp (str "\/itm\/(\d+)") "".
Definition condition_re := regexp (str "(\w+)Condition") "".

Definition conditionMap : list (jsstring * jsstring) :=
  [ (str "NewCondition", str "New"); (str "UsedCondition", str "Used");
    (str "RefurbishedCondition", str "Refurbished") ].

(** Extract item ID from URL *)
Definition stage_itemId (url : jsstring) (data : object) : object :=
  match str_match url itemId_re with
  | Some m => set_prop (str "itemId") (of_option (group 1 m)) data
  | None => data
  end.

(** [offers.itemCondition.match(/(\w+)Condition/)]: only a string has
    the method. *)
Definition condition_of (itemCondition : value) (data : object) : completion object :=
  match itemCondition with
  | VStr s =>
      match str_match s condition_re with
      | Some condMatch =>
          let c := group_or_empty 1 condMatch in
          let mapped :=
            match assoc (c ++ str "Condition") conditionMap with
            | Some v => v
            | None => c
            end in
          Normal (set_prop (str "condition") (VStr mapped) data)
      | None => Normal data
      end
  | _ => Throw type_error
  end.

(** The body of [for (const ld of jsonLd)]
<<
    if (ld['@type'] === 'Product') {
      data.title = ld.name
      data.brand = ld.brand?.name || ld.brand
      data.description = ld.description
      data.imageUrl = Array.isArray(ld.image) ? ld.image[0] : ld.image
      if (ld.offers) {
        const offers = Array.isArray(ld.offers) ? ld.offers[0] : ld.offers
        data.price = parseFloat(offers.price)
        data.currency = offers.priceCurrency
        if (offers.availability) {
          data.inStock = offers.availability.includes('InStock') }
        if (offers.itemCondition) { ... data.condition = ... }
      }
    }
>> *)
Definition jsonld_offers (ld : value) (data : object) : completion object :=
  offers0 <- get_named ld (str "offers") ;;
  if truthy offers0 then
    offers <- (if isArray offers0 then get_index0 offers0 else Normal offers0) ;;
    price <- get_named offers (str "price") ;;
    p <- parseFloat_of price ;;
    let data := set_prop (str "price") (VNum p) data in
    priceCurrency <- get_named offers (str "priceCurrency") ;;
    let data := set_prop (str "currency") priceCurrency data in
    availability <- get_named offers (str "availability") ;;
    data <- (if truthy availability then
               b <- call_includes availability (str "InStock") ;;
               Normal (set_prop (str "inStock") (VBool b) data)
             else Normal data) ;;
    itemCondition <- get_named offers (str "itemCondition") ;;
    if truthy itemCondition then condition_of itemCondition data
    else Normal data
  else Normal data.

Definition jsonld_product (ld : value) (data : object) : completion object :=
  ty <- get_named ld (str "@type") ;;
  if is_string ty (str "Product") then
    name <- get_named ld (str "name") ;;
    let data := set_prop (str "title") name data in
    brand <- get_named ld (str "brand") ;;
    brand_name <- opt_named brand (str "name") ;;
    let data := set_prop (str "brand") (or_else brand_name brand) data in
    description <- get_named ld (str "description") ;;
    let data := set_prop (str "description") description data in
    image <- get_named ld (str "image") ;;
    image0 <- (if isArray image then get_index0 image else Normal image) ;;
    let data := set_prop (str "imageUrl") image0 data in
    jsonld_offers ld data
  else Normal data.

(** Try JSON-LD first (most reliable) *)
Definition stage_jsonld (html : jsstring) (data : object) : completion object :=
  for_each jsonld_product (extractJsonLd html) data.

End Ebay.

(* ================================================================== *)
(** * recipes/generic.ts *)
(* ================================================================== *)

Module Generic.

(** [extractPageTitle(html)] *)
Definition extractPageTitle (html : jsstring) : option jsstring :=
  match str_match html title_re with
  | Some m => Some (decodeHtmlEntities (trim (group_or_empty 1 m)))
  | None => None
  end.

Definition strip_res : list RegExp :=
  [ regexp (str "<script[\s\S]*?<\/script>") "gi";
    regexp (str "<style[\s\S]*?<\/style>") "gi";
    regexp (str "<nav[\s\S]*?<\/nav>") "gi";
    regexp (str "<header[\s\S]*?<\/header>") "gi";
    regexp (str "<footer[\s\S]*?<\/footer>") "gi";
    regexp (str "<aside[\s\S]*?<\/aside>") "gi" ].

Definition mainPatterns : list RegExp :=
  [ regexp (str "<main[^>]*>([\s\S]*?)<\/main>") "i";
    regexp (str "<article[^>]*>([\s\S]*?)<\/article>") "i";
    regexp (q "<div[^>]*class=`[^`]*content[^`]*`[^>]*>([\s\S]*?)<\/div>") "i";
    regexp (q "<div[^>]*id=`content`[^>]*>([\s\S]*?)<\/div>") "i" ].

Definition tag_re := regexp (str "<[^>]+>") "g".

(** [extractMainContent(html)]
<<
    let content = html.replace(/<script[\s\S]*?<\/script>/gi, '') ...
    for (const pattern of mainPatterns) {
      const match = content.match(pattern)
      if (match) { content = match[1]; break } }
    content = content.replace(/<[^>]+>/g, ' ')
    content = cleanText(content)
    if (content.length > 5000) { content = content.substring(0, 5000) + '...' }
    return content || undefined
>> *)
Definition extractMainContent (html : jsstring) : option jsstring :=
  let content :=
    fold_left (fun c re => replace_all re (fun _ => []) c) strip_res html in
  let content :=
    match first_some (str_match content) mainPatterns with
    | Some m => group_or_empty 1 m
    | None => content
    end in
  let content := replace_all tag_re (fun _ => str " ") content in
  let content := cleanText content in
  let content :=
    if Nat.ltb 5000 (List.length content) then firstn 5000 content ++ str "..."
    else content in
  nonempty (Some content).

(** [mainContent.split(/\s+/).filter(Boolean).length]: the number of
    maximal runs of code units that are not white space. *)
Fixpoint count_words (in_word : bool) (s : jsstring) : nat :=
  match s with
  | [] => O
  | c :: s' =>
      if is_whitespace c then count_words false s'
      else if in_word then count_words true s' else S (count_words true s')
  end.

(** [v?.includes(s)] *)
Definition opt_includes (v : value) (s : jsstring) : completion value :=
  match v with
  | VUndefined | VNull => Normal VUndefined
  | _ => b <- call_includes v s ;; Normal (VBool b)
  end.

(** The body of [for (const ld of jsonLd)]
<<
    if (ld['@type'] === 'Article' || ld['@type'] === 'NewsArticle') {
      data.title = data.title || ld.headline
      data.description = data.description || ld.description
      data.author = data.author || ld.author?.name
      data.publishedDate = ld.datePublished
      data.modifiedDate = ld.dateModified }
    if (ld['@type'] === 'Product') {
      data.title = data.title || ld.name
      data.description = data.description || ld.description
      if (ld.offers) {
        data.price = parseFloat(ld.offers.price)
        data.currency = ld.offers.priceCurrency
        data.inStock = ld.offers.availability?.includes('InStock') } }
>> *)
Definition jsonld_article (ld : value) (data : object) : completion object :=
  ty <- get_named ld (str "@type") ;;
  if (is_string ty (str "Article") || is_string ty (str "NewsArticle"))%bool then
    headline <- get_named ld (str "headline") ;;
    let data := set_prop (str "title") (or_else (get (str "title") data) headline) data in
    description <- get_named ld (str "description") ;;
    let data := set_prop (str "description")
                  (or_else (get (str "description") data) description) data in
    author <- get_named ld (str "author") ;;
    author_name <- opt_named author (str "name") ;;
    let data := set_prop (str "author") (or_else (get (str "author") data) author_name) data in
    datePublished <- get_named ld (str "datePublished") ;;
    let data := set_prop (str "publishedDate") datePublished data in
    dateModified <- get_named ld (str "dateModified") ;;
    Normal (set_prop (str "modifiedDate") dateModified data)
  else Normal data.

Definition jsonld_product (ld : value) (data : object) : completion object :=
  ty <- get_named ld (str "@type") ;;
  if is_string ty (str "Product") then
    name <- get_named ld (str "name") ;;
    let data := set_prop (str "title") (or_else (get (str "title") data) name) data in
    description <- get_named ld (str "description") ;;
    let data := set_prop (str "description")
                  (or_else (get (str "description") data) description) data in
    offers <- get_named ld (str "offers") ;;
    if truthy offers then
      price <- get_named offers (str "price") ;;
      p <- parseFloat_of price ;;
      let data := set_prop (str "price") (VNum p) data in
      priceCurrency <- get_named offers (str "priceCurrency") ;;
      let data := set_prop (str "currency") priceCurrency data in
      availability <- get_named offers (str "availability") ;;
      inStock <- opt_includes availability (str "InStock") ;;
      Normal (set_prop (str "inStock") inStock data)
    else Normal data
  else Normal data.

Definition jsonld_item (ld : value) (data : object) : completion object :=
  data <- jsonld_article ld data ;; jsonld_product ld data.

(** Clean up undefined values
<<
    for (const key of Object.keys(data)) {
      if (data[key] === undefined) { delete data[key] } }
>> *)
Definition cleanup (data : object) : object :=
  List.filter (fun p => match snd p with VUndefined => false | _ => true end) data.

(** [genericRecipe.extract(html, url)] *)
Definition extract (html url : jsstring) : completion object :=
  let meta := extractMetaTags html in
  let data : object := [] in
  let data :=
    set_prop (str "title")
      (or_else (get (str "og:title") meta)
         (or_else (get (str "twitter:title") meta)
            (or_else (get (str "title") meta) (of_option (extractPageTitle html)))))
      data in
  let data :=
    set_prop (str "description")
      (or_else (get (str "og:description") meta)
         (or_else (get (str "twitter:description") meta) (get (str "description") meta)))
      data in
  let data :=
    set_prop (str "author")
      (or_else (get (str "author") meta)
         (or_else (get (str "article:author") meta) (get (str "og:article:author") meta)))
      data in
  data <- for_each jsonld_item (extractJsonLd html) data ;;
  let data :=
    match extractMainContent html with
    | Some mainContent =>
        let data := set_prop (str "mainContent") (VStr mainContent) data in
        set_prop (str "wordCount")
          (VNum (of_Z (Z.of_nat (count_words false mainContent)))) data
    | None => data
    end in
  Normal (cleanup data).

End Generic.

(* ================================================================== *)
(** * types.ts *)
(* ================================================================== *)

Module Types.

(** The optional attributes of the interfaces ([?:]) are options. *)
Record RecipeField :=
  { f_type : jsstring;
    f_label : jsstring;
    f_description : option jsstring;
    f_primary : option bool;
    f_noise : option bool;
    f_currency : option jsstring }.

Record DefaultAlert :=
  { a_id : jsstring;
    a_label : jsstring;
    a_description : jsstring;
    a_when : jsstring;
    a_icon : option jsstring }.

Record RecipeExample :=
  { ex_url : jsstring;
    ex_title : jsstring;
    ex_subtitle : option jsstring;
    ex_image : option jsstring }.

Record RecipeMeta :=
  { slug : jsstring;
    name : jsstring;
    description : jsstring;
    longDescription : option jsstring;
    icon : jsstring;
    category : jsstring;
    tags : option (list jsstring);
    maintainers : list jsstring;
    createdAt : option jsstring;
    updatedAt : option jsstring;
    richExamples : list RecipeExample }.

(** [match: RegExp | ((url: string) => boolean)] *)
Inductive Match :=
| MatchRegExp (re : RegExp)
| MatchFn (f : jsstring -> bool).

(** [extract] produces the settled promise; its value is typed
    [ExtractedData], and the validator also guards against a routine that
    resolves to something else, so the model keeps it a [value]. *)
Record Recipe :=
  { meta : RecipeMeta;
    match_ : Match;
    fields : list (jsstring * RecipeField);
    defaultAlerts : option (list DefaultAlert);
    extract : jsstring -> jsstring -> completion value;
    transformUrl : option (jsstring -> jsstring);
    headers : option (list (jsstring * jsstring));
    requiresJs : option bool }.

(** [Object.keys(RECIPE_CATEGORIES)] *)
Definition VALID_CATEGORIES : list jsstring :=
  [ str "ecommerce"; str "developer"; str "jobs"; str "social"; str "news";
    str "finance"; str "status"; str "entertainment"; str "travel";
    str "government"; str "other" ].

(** [recipe.match instanceof RegExp ? recipe.match.test(url)
     : recipe.match(url)] *)
Definition matches (m : Match) (url : jsstring) : bool :=
  match m with
  | MatchRegExp re => test re url
  | MatchFn f => f url
  end.

End Types.
Export Types.

(* ================================================================== *)
(** * index.ts: registry, dispatch, projection *)
(* ================================================================== *)

Module Index.

Section Registry.
  (** [recipes] (the site-specific recipes, in registration order) and
      [genericRecipe] are module constants of index.ts. *)
Variable recipes : list Recipe.
Variable genericRecipe : Recipe.

Definition allRecipes : list Recipe := recipes ++ [genericRecipe].

  (** [getRecipeBySlug(slug)] *)
Definition getRecipeBySlug (s : jsstring) : option Recipe :=
    List.find (fun r => JsString.eqb (slug (meta r)) s) allRecipes.

  (** [getRecipeForUrl(url)]
<<
      for (const recipe of recipes) {
        if (recipe.match instanceof RegExp) {
          if (recipe.match.test(url)) { return recipe }
        } else if (typeof recipe.match === 'function') {
          if (recipe.match(url)) { return recipe }
        }
      }
      return genericRecipe
>> *)
Fixpoint first_match (rs : list Recipe) (url : jsstring) : option Recipe :=
    match rs with
    | [] => None
    | recipe :: rs' =>
        match match_ recipe with
        | MatchRegExp re => if test re url then Some recipe else first_match rs' url
        | MatchFn f => if f url then Some recipe else first_match rs' url
        end
    end.

Definition getRecipeForUrl (url : jsstring) : Recipe :=
    match first_match recipes url with
    | Some recipe => recipe
    | None => genericRecipe
    end.
End Registry.

Record ClientRecipeExample :=
  { c_url : jsstring; c_title : jsstring;
    c_subtitle : option jsstring; c_image : option jsstring }.

Record ClientField :=
  { cf_key : jsstring; cf_label : jsstring; cf_type : jsstring; cf_primary : bool }.

Record ClientAlert :=
  { ca_id : jsstring; ca_label : jsstring; ca_description : jsstring;
    ca_when : jsstring; ca_icon : option jsstring }.

Record ClientRecipe :=
  { cr_slug : jsstring;
    cr_name : jsstring;
    cr_description : jsstring;
    cr_icon : jsstring;
    cr_category : jsstring;
    cr_tags : list jsstring;
    cr_richExamples : list ClientRecipeExample;
    cr_matchPattern : option jsstring;
    cr_fields : list ClientField;
    cr_defaultAlerts : list ClientAlert }.

(** [x || d] for an optional attribute *)
Definition or_default {A} (x : option A) (d : A) (is_truthy : A -> bool) : A :=
  match x with
  | Some a => if is_truthy a then a else d
  | None => d
  end.

(** [toClientRecipe(recipe)]
<<
    tags: recipe.meta.tags || [],
    richExamples: recipe.meta.richExamples.map(...),
    matchPattern: recipe.match instanceof RegExp ? recipe.match.source : null,
    fields: Object.entries(recipe.fields).map(([key, field]) => ({
      key, label: field.label, type: field.type,
      primary: field.primary || false })),
    defaultAlerts: (recipe.defaultAlerts || []).map(...)
>> *)
Definition toClientRecipe (recipe : Recipe) : ClientRecipe :=
  {| cr_slug := slug (meta recipe);
     cr_name := name (meta recipe);
     cr_description := description (meta recipe);
     cr_icon := icon (meta recipe);
     cr_category := category (meta recipe);
     cr_tags := or_default (tags (meta recipe)) [] (fun _ => true);
     cr_richExamples :=
       List.map (fun ex => {| c_url := ex_url ex; c_title := ex_title ex;
                              c_subtitle := ex_subtitle ex; c_image := ex_image ex |})
         (richExamples (meta recipe));
     cr_matchPattern :=
       match match_ recipe with
       | MatchRegExp re => Some (source re)
       | MatchFn _ => None
       end;
     cr_fields :=
       List.map (fun kf => {| cf_key := fst kf; cf_label := f_label (snd kf);
                              cf_type := f_type (snd kf);
                              cf_primary := or_default (f_primary (snd kf)) false (fun b => b) |})
         (fields recipe);
     cr_defaultAlerts :=
       List.map (fun a => {| ca_id := a_id a; ca_label := a_label a;
                             ca_description := a_description a;
                             ca_when := a_when a; ca_icon := a_icon a |})
         (or_default (defaultAlerts recipe) [] (fun _ => true)) |}.

(** [getClientRecipes()] and [getClientGenericRecipe()] *)
Definition getClientRecipes (recipes : list Recipe) : list ClientRecipe :=
  List.map toClientRecipe recipes.

Definition getClientGenericRecipe (genericRecipe : Recipe) : ClientRecipe :=
  toClientRecipe genericRecipe.

End Index.
Export Index.

(* ================================================================== *)
(** * validate.ts *)
(* ================================================================== *)

Module Validate.

Inductive Severity := SevError | SevWarning.

(** [recipe] is typed [string]; the overlap check stores [r1.meta.slug]
    there, which is [undefined] ([None]) for a recipe without a slug. *)
Record ValidationError :=
  { ve_recipe : option jsstring; ve_field : jsstring; ve_message : jsstring;
    ve_severity : Severity }.

Record ValidationResult :=
  { valid : bool; errors : list ValidationError; warnings : list ValidationError }.

(** ** What the validator is handed

    The parameter is typed [Recipe], but the validator exists to check
    objects that may not honour the type (the tests build them with
    [as unknown as Recipe]).  Every attribute it guards with a run-time
    test ([!recipe.meta], [!recipe.meta.slug], [!field.type], ...) may be
    missing here ([None]); [match] and [extract] may be missing or be
    something else than the type says; and a [match] predicate may
    throw.  The attributes it reads without a test keep their type. *)
Record FieldInput :=
  { i_type : option jsstring;
    i_label : option jsstring;
    i_primary : option bool }.

Record AlertInput :=
  { i_id : option jsstring;
    i_alert_label : option jsstring;
    i_when : option jsstring }.

Record ExampleInput :=
  { i_url : jsstring;
    i_title : option jsstring }.

Record MetaInput :=
  { i_slug : option jsstring;
    i_name : option jsstring;
    i_description : option jsstring;
    i_icon : option jsstring;
    i_category : option jsstring;
    i_maintainers : option (list jsstring);
    i_tags : option (list jsstring);
    i_richExamples : option (list ExampleInput) }.

(** [recipe.match]: falsy; a RegExp; a function; any other truthy value. *)
Inductive MatchInput :=
| NoMatch
| IsRegExp (re : RegExp)
| IsFunction (f : jsstring -> completion bool)
| OtherMatch.

(** [recipe.extract]: falsy; a function; any other truthy value. *)
Inductive ExtractInput := NoExtract | IsExtractFunction | OtherExtract.

Record RecipeInput :=
  { i_meta : option MetaInput;
    i_match : MatchInput;
    i_fields : option (list (jsstring * FieldInput));
    i_extract : ExtractInput;
    i_defaultAlerts : option (list AlertInput) }.

(** A recipe that honours the type, as the validator sees it. *)
Definition input_of (recipe : Recipe) : RecipeInput :=
  {| i_meta :=
       Some {| i_slug := Some (slug (meta recipe));
               i_name := Some (name (meta recipe));
               i_description := Some (description (meta recipe));
               i_icon := Some (icon (meta recipe));
               i_category := Some (category (meta recipe));
               i_maintainers := Some (maintainers (meta recipe));
               i_tags := tags (meta recipe);
               i_richExamples :=
                 Some (List.map (fun ex => {| i_url := ex_url ex;
                                              i_title := Some (ex_title ex) |})
                         (richExamples (meta recipe))) |};
     i_match :=
       match match_ recipe with
       | MatchRegExp re => IsRegExp re
       | MatchFn f => IsFunction (fun url => Normal (f url))
       end;
     i_fields :=
       Some (List.map (fun kf => (fst kf, {| i_type := Some (f_type (snd kf));
                                              i_label := Some (f_label (snd kf));
                                              i_primary := f_primary (snd kf) |}))
               (fields recipe));
     i_extract := IsExtractFunction;
     i_defaultAlerts :=
       option_map (List.map (fun a => {| i_id := Some (a_id a);
                                         i_alert_label := Some (a_label a);
                                         i_when := Some (a_when a) |}))
         (defaultAlerts recipe) |}.

(** [!s] for [s: string | undefined] *)
Definition absent (s : option jsstring) : bool :=
  match s with
  | Some (_ :: _) => false
  | _ => true
  end.

(** [`${s}`] *)
Definition shown (s : option jsstring) : jsstring :=
  match s with
  | Some s => s
  | None => str "undefined"
  end.

(** [!l || l.length === 0] *)
Definition none_or_empty {A} (l : option (list A)) : bool :=
  match l with
  | Some (_ :: _) => false
  | _ => true
  end.

(** The two arrays [errors] and [warnings] a validation run pushes to. *)
Definition log : Type := (list ValidationError * list ValidationError)%type.

Definition addError (slug field message : jsstring) (st : log) : log :=
  (fst st ++ [{| ve_recipe := Some slug; ve_field := field; ve_message := message;
                 ve_severity := SevError |}], snd st).

Definition addWarning (slug field message : jsstring) (st : log) : log :=
  (fst st, snd st ++ [{| ve_recipe := Some slug; ve_field := field; ve_message := message;
                         ve_severity := SevWarning |}]).

Definition is_empty (s : jsstring) : bool :=
  match s with [] => true | _ => false end.

Definition is_empty_list {A} (l : list A) : bool :=
  match l with [] => true | _ => false end.

Definition slug_re : RegExp := regexp (str "^[a-z0-9-]+$") "".

(** [a.join(', ')] *)
Fixpoint join_comma (l : list jsstring) : jsstring :=
  match l with
  | [] => []
  | [x] => x
  | x :: l' => x ++ str ", " ++ join_comma l'
  end.

(** [recipe.meta?.slug] *)
Definition slug_of (recipe : RecipeInput) : option jsstring :=
  match i_meta recipe with
  | Some m => i_slug m
  | None => None
  end.

Section WithURL.
Variable new_URL : jsstring -> completion URL.

Section OneRecipe.
Variable recipe : RecipeInput.

    (** [const slug = recipe.meta?.slug || 'unknown'] *)
Definition shown_slug : jsstring :=
      if absent (slug_of recipe) then str "unknown" else shown (slug_of recipe).

Let err := addError shown_slug.
Let warn := addWarning shown_slug.

    (** Required meta fields *)
Definition check_slug (m : MetaInput) (st : log) : log :=
      if absent (i_slug m) then
        err (str "meta.slug") (str "Recipe must have a slug") st
      else if negb (test slug_re (shown (i_slug m))) then
        err (str "meta.slug") (str "Slug must be lowercase alphanumeric with hyphens only") st
      else st.

Definition check_name (m : MetaInput) (st : log) : log :=
      if absent (i_name m) then
        err (str "meta.name") (str "Recipe must have a name") st
      else if Nat.ltb 50 (List.length (shown (i_name m))) then
        warn (str "meta.name") (str "Name should be under 50 characters") st
      else st.

Definition check_description (m : MetaInput) (st : log) : log :=
      if absent (i_description m) then
        err (str "meta.description") (str "Recipe must have a description") st
      else if Nat.ltb (List.length (shown (i_description m))) 20 then
        warn (str "meta.description") (str "Description should be at least 20 characters") st
      else if Nat.ltb 200 (List.length (shown (i_description m))) then
        warn (str "meta.description") (str "Description should be under 200 characters") st
      else st.

Definition check_icon (m : MetaInput) (st : log) : log :=
      if absent (i_icon m) then
        err (str "meta.icon") (str "Recipe must have an icon") st
      else st.

Definition check_category (m : MetaInput) (st : log) : log :=
      if absent (i_category m) then
        err (str "meta.category") (str "Recipe must have a category") st
      else if negb (existsb (JsString.eqb (shown (i_category m))) VALID_CATEGORIES) then
        err (str "meta.category")
          (str "Invalid category. Must be one of: " ++ join_comma VALID_CATEGORIES) st
      else st.

Definition check_maintainers (m : MetaInput) (st : log) : log :=
      if none_or_empty (i_maintainers m) then
        err (str "meta.maintainers") (str "Recipe must have at least one maintainer") st
      else st.

Definition check_tags (m : MetaInput) (st : log) : log :=
      if none_or_empty (i_tags m) then
        warn (str "meta.tags")
          (str "Recipe should have at least one tag for discoverability") st
      else st.

    (** Match pattern validation.  The [try] around the probe
        [recipe.match.test('https://example.com')] has nothing to catch:
        [test] on a RegExp does not throw. *)
Definition check_match (st : log) : log :=
      match i_match recipe with
      | NoMatch => err (str "match") (str "Recipe must have a match pattern") st
      | IsRegExp _ => st
      | IsFunction _ => st
      | OtherMatch => err (str "match") (str "Match must be a RegExp or function") st
      end.

    (** Fields validation *)
Definition check_field (kf : jsstring * FieldInput) (st : log) : log :=
      let '(fieldName, field) := kf in
      let st := if absent (i_type field)
                then err (str "fields." ++ fieldName) (str "Field must have a type") st
                else st in
      if absent (i_label field)
      then err (str "fields." ++ fieldName) (str "Field must have a label") st
      else st.

Definition is_primary (kf : jsstring * FieldInput) : bool :=
      match i_primary (snd kf) with Some true => true | _ => false end.

Definition check_fields (st : log) : log :=
      match i_fields recipe with
      | None | Some [] => err (str "fields") (str "Recipe must have at least one field") st
      | Some fs =>
          let st := fold_left (fun st kf => check_field kf st) fs st in
          if existsb is_primary fs then st
          else warn (str "fields") (str "Recipe should have at least one primary field") st
      end.

    (** Extract function validation *)
Definition check_extract (st : log) : log :=
      match i_extract recipe with
      | NoExtract => err (str "extract") (str "Recipe must have an extract function") st
      | IsExtractFunction => st
      | OtherExtract => err (str "extract") (str "Extract must be a function") st
      end.

    (** Default alerts validation; [alertIds] is the set of ids seen. *)
Definition check_alert (acc : list jsstring * log) (alert : AlertInput)
      : list jsstring * log :=
      let '(alertIds, st) := acc in
      let '(alertIds, st) :=
        if absent (i_id alert) then
          (alertIds, err (str "defaultAlerts") (str "Alert must have an id") st)
        else if existsb (JsString.eqb (shown (i_id alert))) alertIds then
          (alertIds,
           err (str "defaultAlerts") (str "Duplicate alert id: " ++ shown (i_id alert)) st)
        else (alertIds ++ [shown (i_id alert)], st) in
      let st :=
        if absent (i_alert_label alert) then
          err (str "defaultAlerts")
            (str "Alert " ++ shown (i_id alert) ++ str " must have a label") st
        else st in
      let st :=
        if absent (i_when alert) then
          err (str "defaultAlerts")
            (str "Alert " ++ shown (i_id alert) ++ str " must have a when condition") st
        else st in
      (alertIds, st).

Definition check_alerts (st : log) : log :=
      match i_defaultAlerts recipe with
      | Some alerts => snd (fold_left check_alert alerts ([], st))
      | None =>
          warn (str "defaultAlerts") (str "Recipe should have at least one default alert") st
      end.

    (** Rich examples validation.  The call of a [match] predicate is
        not inside a [try]: what it throws leaves [validateRecipe].
<<
        if (recipe.match) {
          let matches = false
          if (recipe.match instanceof RegExp) {
            matches = recipe.match.test(example.url)
          } else if (typeof recipe.match === 'function') {
            matches = recipe.match(example.url) }
          if (!matches) { addError(...) } }
>> *)
Definition example_matches (example : ExampleInput) : completion bool :=
      match i_match recipe with
      | IsRegExp re => Normal (test re (i_url example))
      | IsFunction f => f (i_url example)
      | _ => Normal false
      end.

Definition check_example (st : log) (example : ExampleInput) : completion log :=
      let st :=
        match new_URL (i_url example) with
        | Normal _ => st
        | Throw _ =>
            err (str "meta.richExamples") (str "Invalid example URL: " ++ i_url example) st
        end in
      let st :=
        if (absent (i_title example) || is_empty (trim (shown (i_title example))))%bool then
          err (str "meta.richExamples")
            (str "Example missing title for URL: " ++ i_url example) st
        else st in
      match i_match recipe with
      | NoMatch => Normal st
      | _ =>
          matches <- example_matches example ;;
          if matches then Normal st
          else Normal (err (str "meta.richExamples")
                         (str "Example URL does not match recipe pattern: "
                            ++ i_url example) st)
      end.

Fixpoint check_each_example (examples : list ExampleInput) (st : log) : completion log :=
      match examples with
      | [] => Normal st
      | example :: rest => st' <- check_example st example ;; check_each_example rest st'
      end.

Definition check_examples (m : MetaInput) (st : log) : completion log :=
      match i_richExamples m with
      | Some (example :: rest) => check_each_example (example :: rest) st
      | _ =>
          Normal (warn (str "meta.richExamples")
                    (str "Recipe should have rich examples for better UX") st)
      end.

    (** [validateRecipe(recipe)] *)
Definition validateRecipe : completion ValidationResult :=
      let st : log := ([], []) in
      match i_meta recipe with
      | None =>
          let st := err (str "meta") (str "Recipe must have meta object") st in
          Normal {| valid := false; errors := fst st; warnings := snd st |}
      | Some m =>
          let st := check_slug m st in
          let st := check_name m st in
          let st := check_description m st in
          let st := check_icon m st in
          let st := check_category m st in
          let st := check_maintainers m st in
          let st := check_tags m st in
          let st := check_match st in
          let st := check_fields st in
          let st := check_extract st in
          let st := check_alerts st in
          st <- check_examples m st ;;
          Normal {| valid := is_empty_list (fst st); errors := fst st; warnings := snd st |}
      end.
End OneRecipe.















End WithURL.

(** ** testExtractFunction *)

Record TestResult :=
  { success : bool; data : option value; error : option jsstring }.

(** [Object.entries(data)] *)
Fixpoint indexed (i : Z) (l : list value) : list (jsstring * value) :=
  match l with
  | [] => []
  | v :: l' => (digits_of_Z i, v) :: indexed (i + 1) l'
  end.

Definition entries (v : value) : list (jsstring * value) :=
  match v with
  | VObj o => o
  | VArr l => indexed 0 l
  | _ => []
  end.

(** [typeof data !== 'object' || data === null] *)
Definition not_an_object (v : value) : bool :=
  match v with
  | VObj _ | VArr _ => false
  | _ => true
  end.

Definition is_undefined_value (v : value) : bool :=
  match v with VUndefined => true | _ => false end.

(** [testExtractFunction(recipe, html, url)]
<<
    try {
      const data = await recipe.extract(html, url)
      if (typeof data !== 'object' || data === null) {
        return { success: false, error: 'Extract must return an object' } }
      for (const [key, value] of Object.entries(data)) {
        if (value === undefined) {
          return { success: false,
                   error: `Field ${key} is undefined (should be omitted)` } } }
      return { success: true, data }
    } catch (err) {
      return { success: false,
               error: err instanceof Error ? err.message : 'Unknown error' } }
>> *)
Definition failure (message : jsstring) : TestResult :=
  {| success := false; data := None; error := Some message |}.

Definition testExtractFunction (recipe : Recipe) (html url : jsstring)
  : completion TestResult :=
  try_catch
    (d <- extract recipe html url ;;
     if not_an_object d then Normal (failure (str "Extract must return an object"))
     else
       match List.find (fun kv => is_undefined_value (snd kv)) (entries d) with
       | Some (key, _) =>
           Normal (failure (str "Field " ++ key ++ str " is undefined (should be omitted)"))
       | None => Normal {| success := true; data := Some d; error := None |}
       end)
    (fun err =>
       Normal (failure match err with
                       | ErrorObj message => message
                       | Thrown _ => str "Unknown error"
                       end)).

End Validate.
Export Validate.

(* ================================================================== *)
(** * The catalogue entries of recipes/amazon.ts and recipes/generic.ts *)
(* ================================================================== *)

Module Catalogue.

Definition amazon_match : RegExp :=
  regexp (str "amazon\.(com|co\.uk|de|fr|es|it|ca|com\.au|co\.jp|in|com\.mx|com\.br|nl|se|pl|be|sg|ae|sa|eg|com\.tr)") "i".

Definition amazonMeta : RecipeMeta :=
  {| slug := str "amazon";
     name := str "Amazon Product";
     description := str "Track price drops, stock changes, and deals on Amazon products";
     longDescription := Some (str "Monitor any Amazon product for price changes, back-in-stock alerts, and deal notifications.
		Works with all Amazon regions including US, UK, Germany, France, and more.");
     icon := str "https://www.amazon.com/favicon.ico";
     category := str "ecommerce";
     tags := Some [str "shopping"; str "price-tracking"; str "deals"; str "retail"];
     maintainers := [str "alertnew"];
     createdAt := None;
     updatedAt := None;
     richExamples :=
       [ {| ex_url := str "https://www.amazon.com/dp/B0D1XD1ZV3"; ex_title := str "Apple AirPods Pro (2nd Gen)"; ex_subtitle := None; ex_image := None |};
         {| ex_url := str "https://www.amazon.com/dp/B09XS7JWHH"; ex_title := str "Sony WH-1000XM5 Headphones"; ex_subtitle := None; ex_image := None |};
         {| ex_url := str "https://www.amazon.com/dp/B0CL61F39H"; ex_title := str "PlayStation 5 Console (slim)"; ex_subtitle := None; ex_image := None |} ] |}.

Definition amazonFields : list (jsstring * RecipeField) :=
  [ (str "title", {| f_type := str "string"; f_label := str "Product Title"; f_description := None;
        f_primary := Some true; f_noise := None; f_currency := None |});
    (str "price", {| f_type := str "currency"; f_label := str "Price"; f_description := None;
        f_primary := Some true; f_noise := None; f_currency := Some (str "USD") |});
    (str "originalPrice", {| f_type := str "currency"; f_label := str "Original Price"; f_description := Some (str "List price before discount");
        f_primary := None; f_noise := None; f_currency := None |});
    (str "discount", {| f_type := str "string"; f_label := str "Discount"; f_description := Some (str "Discount percentage");
        f_primary := None; f_noise := None; f_currency := None |});
    (str "inStock", {| f_type := str "boolean"; f_label := str "In Stock"; f_description := None;
        f_primary := Some true; f_noise := None; f_currency := None |});
    (str "rating", {| f_type := str "number"; f_label := str "Rating"; f_description := Some (str "Customer rating out of 5");
        f_primary := None; f_noise := None; f_currency := None |});
    (str "reviewCount", {| f_type := str "number"; f_label := str "Review Count"; f_description := None;
        f_primary := None; f_noise := Some true; f_currency := None |});
    (str "seller", {| f_type := str "string"; f_label := str "Sold By"; f_description := None;
        f_primary := None; f_noise := None; f_currency := None |});
    (str "asin", {| f_type := str "string"; f_label := str "ASIN"; f_description := Some (str "Amazon Standard Identification Number");
        f_primary := None; f_noise := None; f_currency := None |});
    (str "brand", {| f_type := str "string"; f_label := str "Brand"; f_description := None;
        f_primary := None; f_noise := None; f_currency := None |});
    (str "category", {| f_type := str "string"; f_label := str "Category"; f_description := None;
        f_primary := None; f_noise := None; f_currency := None |});
    (str "bestSellerRank", {| f_type := str "number"; f_label := str "Best Seller Rank"; f_description := None;
        f_primary := None; f_noise := None; f_currency := None |});
    (str "isPrime", {| f_type := str "boolean"; f_label := str "Prime Eligible"; f_description := None;
        f_primary := None; f_noise := None; f_currency := None |});
    (str "isDeal", {| f_type := str "boolean"; f_label := str "Deal Active"; f_description := None;
        f_primary := None; f_noise := None; f_currency := None |});
    (str "coupon", {| f_type := str "string"; f_label := str "Coupon"; f_description := Some (str "Available coupon discount");
        f_primary := None; f_noise := None; f_currency := None |});
    (str "deliveryDate", {| f_type := str "string"; f_label := str "Delivery Date"; f_description := None;
        f_primary := None; f_noise := None; f_currency := None |});
    (str "imageUrl", {| f_type := str "url"; f_label := str "Product Image"; f_description := None;
        f_primary := None; f_noise := Some true; f_currency := None |}) ].

Definition amazonAlerts : list DefaultAlert :=
  [ {| a_id := str "price-drop"; a_label := str "Price Drop";
       a_description := str "Get notified when the price decreases";
       a_when := str "price < previous.price"; a_icon := Some ([55357%N; 56496%N]) |};
    {| a_id := str "back-in-stock"; a_label := str "Back in Stock";
       a_description := str "Get notified when the item is back in stock";
       a_when := str "inStock == true && previous.inStock == false"; a_icon := Some ([55357%N; 56550%N]) |};
    {| a_id := str "price-threshold"; a_label := str "Price Under Target";
       a_description := str "Get notified when price drops below your target";
       a_when := str "price < $threshold"; a_icon := Some ([55356%N; 57263%N]) |};
    {| a_id := str "deal-started"; a_label := str "Deal Started";
       a_description := str "Get notified when a deal becomes available";
       a_when := str "isDeal == true && previous.isDeal == false"; a_icon := Some ([55357%N; 56613%N]) |};
    {| a_id := str "coupon-available"; a_label := str "Coupon Available";
       a_description := str "Get notified when a coupon is available";
       a_when := str "coupon != previous.coupon && coupon != null"; a_icon := Some ([55356%N; 57247%N; 65039%N]) |};
    {| a_id := str "significant-drop"; a_label := str "Significant Price Drop (10%+)";
       a_description := str "Get notified when price drops by 10% or more";
       a_when := str "price < previous.price * 0.9"; a_icon := Some ([55357%N; 56521%N]) |} ].

Definition amazonRecipe : Recipe :=
  {| meta := amazonMeta;
     match_ := MatchRegExp amazon_match;
     fields := amazonFields;
     defaultAlerts := Some amazonAlerts;
     extract := fun html url => data <- Amazon.extract html url ;; Normal (VObj data);
     transformUrl := None;
     headers := None;
     requiresJs := None |}.

Definition genericMeta : RecipeMeta :=
  {| slug := str "generic";
     name := str "Web Page";
     description := str "Monitor any web page for content changes";
     longDescription := Some (str "A generic recipe that works with any web page. Extracts metadata,
		main content, and tracks changes to the page structure. Use this as a fallback
		when no specific recipe exists for a website.");
     icon := [55356%N; 57104%N];
     category := str "other";
     tags := Some [str "general"; str "any"; str "webpage"];
     maintainers := [str "alertnew"];
     createdAt := None;
     updatedAt := None;
     richExamples :=
       [ {| ex_url := str "https://www.apple.com/shop/buy-mac/macbook-pro"; ex_title := str "Apple MacBook Pro"; ex_subtitle := None; ex_image := None |};
         {| ex_url := str "https://www.tesla.com/model3"; ex_title := str "Tesla Model 3"; ex_subtitle := None; ex_image := None |} ] |}.

Definition genericFields : list (jsstring * RecipeField) :=
  [ (str "title", {| f_type := str "string"; f_label := str "Page Title"; f_description := None;
        f_primary := Some true; f_noise := None; f_currency := None |});
    (str "description", {| f_type := str "string"; f_label := str "Description"; f_description := None;
        f_primary := None; f_noise := None; f_currency := None |});
    (str "author", {| f_type := str "string"; f_label := str "Author"; f_description := None;
        f_primary := None; f_noise := None; f_currency := None |});
    (str "lastModified", {| f_type := str "date"; f_label := str "Last Modified"; f_description := None;
        f_primary := None; f_noise := Some true; f_currency := None |});
    (str "mainContent", {| f_type := str "string"; f_label := str "Main Content"; f_description := Some (str "Extracted main text content");
        f_primary := None; f_noise := None; f_currency := None |});
    (str "wordCount", {| f_type := str "number"; f_label := str "Word Count"; f_description := None;
        f_primary := None; f_noise := Some true; f_currency := None |}) ].

Definition genericAlerts : list DefaultAlert :=
  [ {| a_id := str "content-change"; a_label := str "Content Changed";
       a_description := str "Get notified when the page content changes";
       a_when := str "mainContent != previous.mainContent"; a_icon := Some ([55357%N; 56541%N]) |};
    {| a_id := str "title-change"; a_label := str "Title Changed";
       a_description := str "Get notified when the page title changes";
       a_when := str "title != previous.title"; a_icon := Some ([55357%N; 56516%N]) |} ].

Definition genericRecipe : Recipe :=
  {| meta := genericMeta;
     match_ := MatchFn (fun _ => true);
     fields := genericFields;
     defaultAlerts := Some genericAlerts;
     extract := fun html url => data <- Generic.extract html url ;; Normal (VObj data);
     transformUrl := None;
     headers := None;
     requiresJs := None |}.

End Catalogue.
Export Catalogue.

(* ================================================================== *)
(** * Facts about strings and objects *)
(* ================================================================== *)

Module Facts.

Lemma eqb_spec (a b : jsstring) : reflect (a = b) (JsString.eqb a b).
Proof.
  revert b; induction a as [|x a IH]; intros [|y b]; simpl;
    try (constructor; congruence).
  destruct (N.eqb_spec x y) as [->|Hxy]; simpl.
  - destruct (IH b) as [->|Hab]; constructor; congruence.
  - constructor; congruence.
Qed.

Lemma eqb_refl (a : jsstring) : JsString.eqb a a = true.
Proof. destruct (eqb_spec a a); congruence. Qed.

Lemma eqb_eq (a b : jsstring) : JsString.eqb a b = true <-> a = b.
Proof. destruct (eqb_spec a b); split; congruence. Qed.

Lemma eqb_neq (a b : jsstring) : JsString.eqb a b = false <-> a <> b.
Proof. destruct (eqb_spec a b); split; congruence. Qed.


Lemma lookup_set_same (k : jsstring) (v : value) (o : object) :
  lookup k (set_prop k v o) = Some v.
Proof.
  induction o as [|[k' v'] o IH]; simpl.
  - now rewrite eqb_refl.
  - destruct (JsString.eqb k k') eqn:E; simpl.
    + now rewrite eqb_refl.
    + now rewrite E.
Qed.

Lemma lookup_set_other (k k' : jsstring) (v : value) (o : object) :
  JsString.eqb k k' = false -> lookup k (set_prop k' v o) = lookup k o.
Proof.
  intros Hk; induction o as [|[k2 v2] o IH]; simpl.
  - now rewrite Hk.
  - destruct (JsString.eqb k' k2) eqn:E; simpl.
    + apply eqb_eq in E; subst k2. now rewrite Hk.
    + now rewrite IH.
Qed.

Lemma bind_normal {A B} (c : completion A) (f : A -> completion B) (b : B) :
  bind c f = Normal b -> exists a, c = Normal a /\ f a = Normal b.
Proof. destruct c as [a|e]; simpl; [eauto|discriminate]. Qed.

Lemma Normal_inj {A} (a b : A) : @Normal A a = Normal b -> a = b.
Proof. intros H; injection H; auto. Qed.

Lemma get_set_same (k : jsstring) (v : value) (o : object) :
  get k (set_prop k v o) = v.
Proof. unfold get; now rewrite lookup_set_same. Qed.

Lemma get_set_other (k k' : jsstring) (v : value) (o : object) :
  JsString.eqb k k' = false -> get k (set_prop k' v o) = get k o.
Proof. intros H; unfold get; now rewrite lookup_set_other. Qed.

End Facts.
Import Facts.

(* ================================================================== *)
(** * Objects built by assignments; loops that may throw *)
(* ================================================================== *)

Module ObjectFacts.

(** [keys_in ks o]: every own key of [o] is one of [ks]. *)
Definition keys_in (ks : list jsstring) (o : object) : Prop :=
  Forall (fun kv => In (fst kv) ks) o.

Lemma keys_nil (ks : list jsstring) : keys_in ks [].
Proof. constructor. Qed.

Lemma keys_set (ks : list jsstring) (k : jsstring) (v : value) (o : object) :
  keys_in ks o -> In k ks -> keys_in ks (set_prop k v o).
Proof.
  intros Ho Hk. induction Ho as [|[k' v'] o Hk' Ho IH]; simpl.
  - repeat constructor; exact Hk.
  - destruct (JsString.eqb k k'); constructor; auto.
Qed.

Lemma keys_lookup (ks : list jsstring) (o : object) (k : jsstring) (v : value) :
  keys_in ks o -> lookup k o = Some v -> In k ks.
Proof.
  intros Ho. induction Ho as [|[k' v'] o Hk' Ho IH]; simpl; [discriminate|].
  destruct (eqb_spec k k') as [->|_]; [intros _; exact Hk'|exact IH].
Qed.

Lemma keys_absent (ks : list jsstring) (o : object) (k : jsstring) :
  keys_in ks o -> ~ In k ks -> lookup k o = None.
Proof.
  intros Ho Hk. destruct (lookup k o) as [v|] eqn:E; [|reflexivity].
  exfalso. apply Hk. eapply keys_lookup; eauto.
Qed.

Lemma get_other (k k' : jsstring) (v : value) (o : object) :
  k <> k' -> get k (set_prop k' v o) = get k o.
Proof. intros H. apply get_set_other. apply eqb_neq; exact H. Qed.

(** [for (const ld of jsonLd)]: an invariant of the body is an
    invariant of the loop. *)
Lemma for_each_invariant (P : object -> Prop)
    (body : value -> object -> completion object) :
  (forall ld d d', P d -> body ld d = Normal d' -> P d') ->
  forall l d d', P d -> for_each body l d = Normal d' -> P d'.
Proof.
  intros Hb. induction l as [|ld l IH]; intros d d' Hd H; simpl in H.
  - apply Normal_inj in H. now subst.
  - apply bind_normal in H. destruct H as (d1 & H1 & H).
    eapply IH; [|exact H]. eapply Hb; eauto.
Qed.

Lemma for_each_throws (body : value -> object -> completion object) (bad : value) :
  (forall d, exists e, body bad d = Throw e) ->
  forall l d, In bad l -> exists e, for_each body l d = Throw e.
Proof.
  intros Hb. induction l as [|ld l IH]; intros d Hin; [destruct Hin|].
  simpl. destruct Hin as [->|Hin].
  - destruct (Hb d) as [e ->]. exists e. reflexivity.
  - destruct (body ld d) as [d1|e]; simpl; [apply IH; exact Hin|eauto].
Qed.

End ObjectFacts.

Module ResultTactics.

Export ObjectFacts.

Ltac in_keys := cbn [In]; repeat (first [left; reflexivity | right]).

Ltac branches :=
  repeat match goal with
  | |- context [if ?c then _ else _] => destruct c eqn:?
  | |- context [match ?x with _ => _ end] => destruct x eqn:?
  end.

(** A stage that only assigns keys of [ks] keeps [keys_in ks]. *)
Ltac keys_stage :=
  cbv zeta; branches;
  repeat match goal with
  | |- keys_in _ (set_prop _ _ _) => apply keys_set; [|in_keys]
  end;
  try assumption.

(** Inversion of a monadic step that completed normally. *)
Ltac step :=
  match goal with
  | H : bind _ _ = Normal _ |- _ =>
      apply bind_normal in H; destruct H as (? & ? & H); cbv beta zeta in H
  | H : (if ?c then _ else _) = Normal _ |- _ => destruct c eqn:?
  | H : match ?x with _ => _ end = Normal _ |- _ => destruct x eqn:?
  | H : Normal _ = Normal _ |- _ => apply Normal_inj in H; subst
  | H : Throw _ = Normal _ |- _ => discriminate H
  end.

End ResultTactics.

(* ================================================================== *)
(** * Dispatch (index.ts) *)
(* ================================================================== *)

Module DispatchProofs.

Lemma first_match_some (rs : list Recipe) (url : jsstring) (r : Recipe) :
  first_match rs url = Some r ->
  exists before after,
    rs = before ++ r :: after
    /\ matches (match_ r) url = true
    /\ Forall (fun r' => matches (match_ r') url = false) before.
Proof.
  induction rs as [|x rs IH]; simpl; [discriminate|].
  assert (Hx : matches (match_ x) url
               = match match_ x with MatchRegExp re => test re url | MatchFn f => f url end)
    by reflexivity.
  destruct (matches (match_ x) url) eqn:M.
  - intros H. assert (r = x) as ->.
    { destruct (match_ x); rewrite <- Hx in H; congruence. }
    exists [], rs; repeat split; auto.
  - intros H. assert (H' : first_match rs url = Some r).
    { destruct (match_ x); rewrite <- Hx in H; exact H. }
    destruct (IH H') as (b & a & -> & Hm & Hall).
    exists (x :: b), a; repeat split; auto.
Qed.

Lemma first_match_none (rs : list Recipe) (url : jsstring) :
  first_match rs url = None ->
  Forall (fun r' => matches (match_ r') url = false) rs.
Proof.
  induction rs as [|x rs IH]; simpl; [constructor|].
  intros H. destruct (match_ x) eqn:Mx.
  - destruct (test re url) eqn:T; [discriminate|].
    constructor; [unfold matches; now rewrite Mx|auto].
  - destruct (f url) eqn:T; [discriminate|].
    constructor; [unfold matches; now rewrite Mx|auto].
Qed.

(** C1.  For every URL, [getRecipeForUrl] returns one recipe: the first
    recipe of the ordered non-fallback sequence whose ownership test
    (regular expression test or predicate call) accepts the URL, every
    recipe registered before it rejecting the URL; and the generic
    fallback when no non-fallback recipe accepts the URL.  So of two
    recipes that both accept, the earlier-registered one is returned. *)
Theorem getRecipeForUrl_first_owner :
  forall (recipes : list Recipe) (genericRecipe : Recipe) (url : jsstring),
    (exists before after,
        recipes = before ++ getRecipeForUrl recipes genericRecipe url :: after
        /\ matches (match_ (getRecipeForUrl recipes genericRecipe url)) url = true
        /\ Forall (fun r => matches (match_ r) url = false) before)
    \/ (Forall (fun r => matches (match_ r) url = false) recipes
        /\ getRecipeForUrl recipes genericRecipe url = genericRecipe).
Proof.
  intros recipes genericRecipe url. unfold getRecipeForUrl.
  destruct (first_match recipes url) as [r|] eqn:F.
  - left. apply first_match_some in F. exact F.
  - right. split; [now apply first_match_none|reflexivity].
Qed.

End DispatchProofs.

(* ================================================================== *)
(** * The extraction test harness (validate.ts) *)
(* ================================================================== *)

Module HarnessProofs.

Definition thrown_message (e : thrown) : jsstring :=
  match e with
  | ErrorObj message => message
  | Thrown _ => str "Unknown error"
  end.

Definition undefined_field_message (key : jsstring) : jsstring :=
  str "Field " ++ key ++ str " is undefined (should be omitted)".

Lemma find_undefined_none (l : list (jsstring * value)) :
  List.find (fun kv => is_undefined_value (snd kv)) l = None ->
  Forall (fun kv => snd kv <> VUndefined) l.
Proof.
  induction l as [|[k v] l IH]; simpl; [constructor|].
  destruct v; simpl; try discriminate; intros H;
    (constructor; [simpl; discriminate|auto]).
Qed.

Lemma find_undefined_some (l : list (jsstring * value)) (kv : jsstring * value) :
  List.find (fun kv => is_undefined_value (snd kv)) l = Some kv ->
  In kv l /\ snd kv = VUndefined.
Proof.
  intros H. apply find_some in H. destruct H as [Hin Hu]. split; [exact Hin|].
  destruct (snd kv); simpl in Hu; congruence.
Qed.

(** C6.  [testExtractFunction] never propagates a raised failure: it
    always completes normally with a result, which is
    - [{success: false, error}] with the message of the error (or
      'Unknown error') when the extraction routine throws;
    - [{success: false, error}] when the routine's result is not an
      object (a primitive or null);
    - [{success: false, error}] naming a field when some field of the
      result is bound to [undefined];
    - [{success: true, data}] with the routine's result otherwise, and
      then no field of the result is bound to [undefined]. *)
Theorem testExtractFunction_captures :
  forall (recipe : Recipe) (html url : jsstring),
    exists r : TestResult,
      testExtractFunction recipe html url = Normal r
      /\ match extract recipe html url with
         | Throw e =>
             success r = false /\ data r = None
             /\ error r = Some (thrown_message e)
         | Normal d =>
             if not_an_object d then
               success r = false /\ data r = None
               /\ error r = Some (str "Extract must return an object")
             else if existsb (fun kv => is_undefined_value (snd kv)) (entries d) then
               exists key, In (key, VUndefined) (entries d)
                           /\ success r = false /\ data r = None
                           /\ error r = Some (undefined_field_message key)
             else
               success r = true /\ data r = Some d /\ error r = None
               /\ Forall (fun kv => snd kv <> VUndefined) (entries d)
         end.
Proof.
  intros recipe html url. unfold testExtractFunction.
  destruct (extract recipe html url) as [d|e]; simpl.
  - destruct (not_an_object d) eqn:NO; simpl.
    + eexists; split; [reflexivity|]. repeat split.
    + destruct (List.find _ (entries d)) as [[key v]|] eqn:F; simpl.
      * pose proof (find_undefined_some _ F) as [Hin Hu]. simpl in Hu; subst v.
        assert (E : existsb (fun kv => is_undefined_value (snd kv)) (entries d) = true).
        { apply existsb_exists. exists (key, VUndefined); split; auto. }
        rewrite E. eexists; split; [reflexivity|]. exists key. repeat split. exact Hin.
      * pose proof (find_undefined_none _ F) as Hall.
        assert (E : existsb (fun kv => is_undefined_value (snd kv)) (entries d) = false).
        { destruct (existsb _ (entries d)) eqn:E; [|reflexivity].
          apply existsb_exists in E. destruct E as (kv & Hin & Hu).
          rewrite Forall_forall in Hall. specialize (Hall kv Hin).
          destruct (snd kv); simpl in Hu; congruence. }
        rewrite E. eexists; split; [reflexivity|]. repeat split. exact Hall.
  - eexists; split; [reflexivity|]. destruct e; repeat split.
Qed.

End HarnessProofs.

(* ================================================================== *)
(** * The client projection (index.ts) *)
(* ================================================================== *)

Module ProjectionProofs.

Definition tags_or_empty (recipe : Recipe) : list jsstring :=
  match tags (meta recipe) with
  | Some t => t
  | None => []
  end.

Definition primary_or_false (field : RecipeField) : bool :=
  match f_primary field with
  | Some b => b
  | None => false
  end.

Definition alerts_or_empty (recipe : Recipe) : list DefaultAlert :=
  match defaultAlerts recipe with
  | Some a => a
  | None => []
  end.

(** C9.  [toClientRecipe] totalises the optional attributes of every
    recipe: the projected tags are [meta.tags], or the empty list when
    [meta.tags] is absent; the projected fields are the recipe's fields in
    order, each with its primary flag, or [false] when the flag is absent;
    the projected alerts are the projections of [defaultAlerts], or the
    empty list when [defaultAlerts] is absent. *)
Theorem toClientRecipe_totalises :
  forall recipe : Recipe,
    cr_tags (toClientRecipe recipe) = tags_or_empty recipe
    /\ List.map (fun f => (cf_key f, cf_primary f)) (cr_fields (toClientRecipe recipe))
       = List.map (fun kf => (fst kf, primary_or_false (snd kf))) (fields recipe)
    /\ List.map ca_id (cr_defaultAlerts (toClientRecipe recipe))
       = List.map a_id (alerts_or_empty recipe)
    /\ (tags (meta recipe) = None -> cr_tags (toClientRecipe recipe) = [])
    /\ (defaultAlerts recipe = None -> cr_defaultAlerts (toClientRecipe recipe) = []).
Proof.
  intros recipe. unfold toClientRecipe, tags_or_empty, alerts_or_empty; simpl.
  split; [|split; [|split; [|split]]].
  - unfold or_default. destruct (tags (meta recipe)); reflexivity.
  - rewrite map_map. apply map_ext. intros [k f]; simpl.
    unfold primary_or_false, or_default. destruct (f_primary f) as [[|]|]; reflexivity.
  - rewrite map_map. unfold or_default. destruct (defaultAlerts recipe); reflexivity.
  - intros ->; reflexivity.
  - intros ->; reflexivity.
Qed.

End ProjectionProofs.

(* ================================================================== *)
(** * Money parsing (helpers.ts) *)
(* ================================================================== *)

Module PriceProofs.

(** The text [parseFloat] is applied to: everything but digits, periods
    and commas deleted, then the first comma turned into a period. *)
Definition cleaned_price (s : jsstring) : jsstring :=
  replace_first (str ",") (str ".") (delete_all (fun c => negb (price_char c)) s).

(** C3.  On [$1,234.56] and on [1,234.56] the cleaned text is
    [1.234.56]: the first comma, a thousands separator, has become a
    decimal point.  [parseFloat] reads its longest numeric prefix,
    [1.234], so [parsePrice] returns the number 1.234 and not 1234.56. *)
Theorem parsePrice_thousands_comma :
  cleaned_price (str "$1,234.56") = str "1.234.56"
  /\ cleaned_price (str "1,234.56") = str "1.234.56"
  /\ parsePrice (Some (str "$1,234.56")) = Some (of_decimal false 1234 (-3))
  /\ parsePrice (Some (str "1,234.56")) = Some (of_decimal false 1234 (-3))
  /\ of_decimal false 1234 (-3) <> of_decimal false 123456 (-2).
Proof.
  split; [|split; [|split; [|split]]]; try (vm_compute; reflexivity).
  vm_compute; discriminate.
Qed.


End PriceProofs.

(* ================================================================== *)
(** * Undefined fields in extraction results *)
(* ================================================================== *)

Module UndefinedFieldProofs.

(** The payload the validation script (scripts/validate-recipes.ts) feeds
    to every recipe, and its URL. *)
Definition minimalHtml : jsstring :=
  str "<html><head><title>Test</title></head><body></body></html>".

Definition testUrl : jsstring := str "https://example.com".

(** C4.  On the validation script's own minimal payload the Amazon
    routine returns a map whose key [title] is bound to [undefined]: no
    title pattern matches, and the meta-tag fallback assigns
    [meta['og:title'] || meta['twitter:title']], which is [undefined].
    [testExtractFunction] therefore reports the Amazon recipe as failing,
    with the message that the field should have been omitted. *)
Theorem amazon_extract_binds_undefined :
  Amazon.extract minimalHtml testUrl
  = Normal [ (str "title", VUndefined); (str "isPrime", VBool false);
             (str "isDeal", VBool false) ]
  /\ testExtractFunction amazonRecipe minimalHtml testUrl
     = Normal (failure (str "Field title is undefined (should be omitted)")).
Proof. split; vm_compute; reflexivity. Qed.

Lemma cleanup_no_undefined (data : object) :
  Forall (fun kv => snd kv <> VUndefined) (Generic.cleanup data).
Proof.
  unfold Generic.cleanup. apply Forall_forall. intros [k v] Hin.
  apply filter_In in Hin. destruct Hin as [_ H]. simpl in *.
  destruct v; congruence.
Qed.

(** The generic recipe does what the validator asks for: whatever the
    payload, the map it returns binds no key to [undefined], because its
    last step deletes such keys. *)
Lemma generic_extract_no_undefined (html url : jsstring) (data : object) :
  Generic.extract html url = Normal data ->
  Forall (fun kv => snd kv <> VUndefined) data.
Proof.
  unfold Generic.extract. intros H.
  apply bind_normal in H. destruct H as (d & _ & H).
  apply Normal_inj in H. rewrite <- H. apply cleanup_no_undefined.
Qed.

(** On the validation script's payload the generic routine returns a map
    without undefined values. *)
Lemma generic_extract_minimal_payload :
  Forall (fun kv => snd kv <> VUndefined)
    [ (str "title", VStr (str "Test")); (str "mainContent", VStr (str "Test"));
      (str "wordCount", VNum (of_Z 1)) ].
Proof.
  apply (@generic_extract_no_undefined minimalHtml testUrl).
  vm_compute; reflexivity.
Defined.

End UndefinedFieldProofs.

(* ================================================================== *)
(** * Facts about binary64 rounding *)
(* ================================================================== *)

Module NumberFacts.













End NumberFacts.
Import NumberFacts.

(* ================================================================== *)
(** * Abbreviated counts (helpers.ts) *)
(* ================================================================== *)

Module AbbreviatedProofs.







End AbbreviatedProofs.

(* ================================================================== *)
(** * What the normalisation helpers do with unparseable input *)
(* ================================================================== *)

Module NormalisationProofs.

Import PriceProofs AbbreviatedProofs.





(** A suffix with no number before it does give NaN. *)
Lemma parseAbbreviatedNumber_suffix_only :
  parseAbbreviatedNumber (str "k") = NaN
  /\ parseAbbreviatedNumber (str "1.2k") = of_Z 1200
  /\ parseAbbreviatedNumber (str "2M") = of_Z 2000000.
Proof. split; [|split]; vm_compute; reflexivity. Qed.

End NormalisationProofs.

(* ================================================================== *)
(** * The Amazon pipeline: later stages and earlier values *)
(* ================================================================== *)

Module AmazonProofs.

Import ResultTactics Amazon.

(** Case analysis on the guards and pattern results of a stage. *)
Ltac split_branches :=
  repeat match goal with
  | |- context [if ?c then _ else _] => destruct c eqn:?
  | |- context [match ?x with _ => _ end] => destruct x eqn:?
  end.

(** ** Stages and what their guards protect *)

(** What the guard of a stage takes for "already set": [!data.f] is
    false on a truthy value, [data.inStock === undefined] on every value
    but [undefined]. *)
Definition settled (k : jsstring) (v : value) : bool :=
  if JsString.eqb k (str "inStock") then
    match v with VUndefined => false | _ => true end
  else truthy v.

Lemma settled_undefined (k : jsstring) : settled k VUndefined = false.
Proof. unfold settled. destruct (JsString.eqb k (str "inStock")); reflexivity. Qed.

(** A stage with the keys it may assign, and whether it assigns only
    under the guard of its key. *)
Record stage :=
  { apply_stage : object -> object;
    writes : list jsstring;
    guarded : bool }.

Definition run_stages (stages : list (object -> object)) (data : object) : object :=
  fold_left (fun d f => f d) stages data.

Definition sound (s : stage) : Prop :=
  (forall k d, ~ In k (writes s) -> get k (apply_stage s d) = get k d)
  /\ (guarded s = true ->
      forall k d, settled k (get k d) = true -> get k (apply_stage s d) = get k d).

Definition mem (k : jsstring) (ks : list jsstring) : bool := existsb (JsString.eqb k) ks.

Lemma mem_In (k : jsstring) (ks : list jsstring) : mem k ks = true <-> In k ks.
Proof.
  unfold mem. rewrite existsb_exists. split.
  - intros (x & Hin & E). apply eqb_eq in E. now subst.
  - intros Hin. exists k. split; [exact Hin|apply eqb_refl].
Qed.

(** No unguarded stage assigns a key that was there at the start or that
    an earlier stage may have assigned. *)
Fixpoint separate (seen : list jsstring) (stages : list stage) : bool :=
  match stages with
  | [] => true
  | s :: rest =>
      ((guarded s || forallb (fun k => negb (mem k seen)) (writes s))
       && separate (writes s ++ seen) rest)%bool
  end.

Definition functions (stages : list stage) : list (object -> object) :=
  List.map apply_stage stages.

Lemma run_stages_app (pre post : list (object -> object)) (d : object) :
  run_stages (pre ++ post) d = run_stages post (run_stages pre d).
Proof. unfold run_stages. apply fold_left_app. Qed.

(** A key no stage has seen is still undefined. *)
Lemma unseen_undefined (stages : list stage) :
  Forall sound stages ->
  forall (seen : list jsstring) (d : object) (k : jsstring),
    (forall k', ~ In k' seen -> get k' d = VUndefined) ->
    ~ In k (flat_map writes stages ++ seen) ->
    get k (run_stages (functions stages) d) = VUndefined.
Proof.
  induction 1 as [|s rest Hs _ IH]; intros seen d k Hd Hk; simpl in *.
  - apply Hd. exact Hk.
  - apply (IH (writes s ++ seen)).
    + intros k' Hk'. destruct Hs as [Hu _]. rewrite Hu.
      * apply Hd. intros Hin. apply Hk'. apply in_or_app. right; exact Hin.
      * intros Hin. apply Hk'. apply in_or_app. left; exact Hin.
    + intros Hin. apply Hk. rewrite <- app_assoc.
      apply in_app_or in Hin. destruct Hin as [Hin|Hin].
      * apply in_or_app. right. apply in_or_app. left; exact Hin.
      * apply in_app_or in Hin. destruct Hin as [Hin|Hin].
        -- apply in_or_app. left; exact Hin.
        -- apply in_or_app. right. apply in_or_app. right; exact Hin.
Qed.

(** Once a key is settled, the stages that follow leave it alone. *)
Lemma settled_stays (post : list stage) :
  Forall sound post ->
  forall (seen : list jsstring) (d : object) (k : jsstring),
    separate seen post = true ->
    (~ In k seen -> get k d = VUndefined) ->
    settled k (get k d) = true ->
    get k (run_stages (functions post) d) = get k d.
Proof.
  induction 1 as [|s rest Hs _ IH]; intros seen d k Hsep Hd Hk; simpl in *;
    [reflexivity|].
  apply andb_true_iff in Hsep. destruct Hsep as [Hg Hsep].
  assert (E : get k (apply_stage s d) = get k d).
  { destruct Hs as [Hu Hgd]. destruct (guarded s) eqn:G.
    - apply Hgd; auto.
    - simpl in Hg. destruct (mem k (writes s)) eqn:M.
      + exfalso. apply mem_In in M. rewrite forallb_forall in Hg.
        specialize (Hg k M). apply negb_true_iff in Hg.
        rewrite Hd in Hk; [rewrite settled_undefined in Hk; discriminate|].
        intros Hin. apply mem_In in Hin. congruence.
      + apply Hu. intros Hin. apply mem_In in Hin. congruence. }
  change (get k (run_stages (functions rest) (apply_stage s d)) = get k d).
  rewrite <- E. apply (IH (writes s ++ seen)); [exact Hsep| |rewrite E; exact Hk].
  intros Hin. rewrite E. apply Hd. intros Hin'. apply Hin. apply in_or_app.
  right; exact Hin'.
Qed.

Lemma separate_app (pre post : list stage) (seen : list jsstring) :
  separate seen (pre ++ post) = true ->
  exists seen',
    separate seen' post = true
    /\ (forall k, In k seen' <-> In k (flat_map writes pre ++ seen)).
Proof.
  revert seen. induction pre as [|s pre IH]; intros seen H; simpl in *.
  - exists seen. split; [exact H|tauto].
  - apply andb_true_iff in H. destruct H as [_ H].
    destruct (IH _ H) as (seen' & Hs & Hk). exists seen'. split; [exact Hs|].
    intros k. rewrite Hk. rewrite <- !app_assoc.
    rewrite !in_app_iff. tauto.
Qed.

(** The split form: whatever the point of the pipeline, a key that is
    settled there has the same value at the end. *)
Lemma pipeline_keeps_settled (stages : list stage) (seen : list jsstring) :
  Forall sound stages ->
  separate seen stages = true ->
  forall (pre post : list (object -> object)) (d : object) (k : jsstring),
    functions stages = pre ++ post ->
    (forall k', ~ In k' seen -> get k' d = VUndefined) ->
    settled k (get k (run_stages pre d)) = true ->
    get k (run_stages (pre ++ post) d) = get k (run_stages pre d).
Proof.
  intros Hsound Hsep pre post d k Hsplit Hd Hk.
  assert (S : exists spre spost,
             stages = spre ++ spost /\ functions spre = pre /\ functions spost = post).
  { unfold functions in *. clear -Hsplit. revert stages Hsplit.
    induction pre as [|f pre IH]; intros stages H; simpl in *.
    - exists [], stages. auto.
    - destruct stages as [|s stages]; [discriminate|]. simpl in H.
      injection H as Hf H. destruct (IH _ H) as (a & b & -> & <- & <-).
      exists (s :: a), b. simpl. rewrite Hf. auto. }
  destruct S as (spre & spost & -> & <- & <-).
  rewrite run_stages_app.
  apply Forall_app in Hsound. destruct Hsound as [Hpre Hpost].
  destruct (separate_app _ _ _ Hsep) as (seen' & Hsep' & Hseen).
  apply (@settled_stays spost Hpost seen'); [exact Hsep'| |exact Hk].
  intros Hin. apply (@unseen_undefined spre Hpre seen); [exact Hd|].
  intros Hin'. apply Hin. apply Hseen. exact Hin'.
Qed.


(** ** The stages of the Amazon routine after the JSON-LD loop *)

Definition guarded_stage (f : object -> object) (k : jsstring) : stage :=
  {| apply_stage := f; writes := [k]; guarded := true |}.

Definition plain_stage (f : object -> object) (ks : list jsstring) : stage :=
  {| apply_stage := f; writes := ks; guarded := false |}.

Definition described (html : jsstring) : list stage :=
  [ guarded_stage (stage_title html) (str "title");
    guarded_stage (stage_title_meta html) (str "title");
    guarded_stage (stage_price_whole html) (str "price");
    guarded_stage (stage_price_patterns html) (str "price");
    plain_stage (stage_original_price html) [str "originalPrice"];
    plain_stage (stage_discount html) [str "discount"];
    guarded_stage (stage_stock html) (str "inStock");
    guarded_stage (stage_out_of_stock html) (str "inStock");
    guarded_stage stage_default_stock (str "inStock");
    guarded_stage (stage_rating html) (str "rating");
    guarded_stage (stage_reviews html) (str "reviewCount");
    guarded_stage (stage_brand html) (str "brand");
    plain_stage (stage_seller html) [str "seller"];
    plain_stage (stage_prime html) [str "isPrime"];
    plain_stage (stage_deal html) [str "isDeal"];
    plain_stage (stage_coupon html) [str "coupon"];
    plain_stage (stage_bsr html) [str "bestSellerRank"; str "category"];
    plain_stage (stage_delivery html) [str "deliveryDate"];
    guarded_stage (stage_image html) (str "imageUrl") ].

(** The stages after the JSON-LD loop, in the order [after_jsonld] runs
    them. *)
Definition later_stages (html : jsstring) : list (object -> object) :=
  [ stage_title html; stage_title_meta html; stage_price_whole html;
    stage_price_patterns html; stage_original_price html; stage_discount html;
    stage_stock html; stage_out_of_stock html; stage_default_stock;
    stage_rating html; stage_reviews html; stage_brand html; stage_seller html;
    stage_prime html; stage_deal html; stage_coupon html; stage_bsr html;
    stage_delivery html; stage_image html ].

Lemma after_jsonld_stages (html : jsstring) (data : object) :
  after_jsonld html data = run_stages (later_stages html) data.
Proof. reflexivity. Qed.

Lemma described_functions (html : jsstring) : functions (described html) = later_stages html.
Proof. reflexivity. Qed.

(** The fields the URL stage and the JSON-LD stage can set. *)
Definition earlier_keys : list jsstring :=
  [ str "asin"; str "title"; str "description"; str "brand"; str "imageUrl";
    str "price"; str "inStock"; str "rating"; str "reviewCount" ].

Lemma described_separate (html : jsstring) : separate earlier_keys (described html) = true.
Proof. reflexivity. Qed.

Lemma settled_truthy (k : jsstring) (v : value) :
  settled k v = true -> k <> str "inStock" -> truthy v = true.
Proof.
  unfold settled. intros H N. destruct (eqb_spec k (str "inStock")); [contradiction|exact H].
Qed.

Lemma settled_defined (v : value) :
  settled (str "inStock") v = true -> v <> VUndefined.
Proof. unfold settled. simpl. destruct v; congruence. Qed.

Ltac head_of f :=
  match f with
  | ?g _ => head_of g
  | _ => f
  end.

(** A stage leaves alone every key it does not assign. *)
Ltac other_keys :=
  let k := fresh "k" in let d := fresh "d" in let Hk := fresh "Hk" in
  intros k d Hk; cbn [writes guarded_stage plain_stage apply_stage In] in *;
  unfold falsy, is_undefined;
  branches;
  rewrite ?get_set_other
    by (apply eqb_neq; let E := fresh in intros E; apply Hk; rewrite E; in_keys);
  reflexivity.

(** A guarded stage leaves its key alone once the key is settled. *)
Ltac own_key target :=
  let k := fresh "k" in let d := fresh "d" in let Hs := fresh "Hs" in
  intros _ k d Hs; cbn [apply_stage guarded_stage];
  destruct (eqb_spec k target) as [->|N];
  [ first [ apply settled_truthy in Hs; [|discriminate]
          | apply settled_defined in Hs ];
    unfold falsy, is_undefined;
    branches; try reflexivity; exfalso;
    repeat match goal with
    | E : (_ && _)%bool = true |- _ => apply andb_true_iff in E; destruct E
    | E : negb _ = true |- _ => apply negb_true_iff in E
    end;
    first [ congruence
          | match goal with
            | E : get ?key ?x = _ |- _ => rewrite E in Hs; first [discriminate Hs|congruence]
            end
          | destruct (get target d); first [congruence|discriminate] ]
  | unfold falsy, is_undefined; branches;
    rewrite ?get_set_other by (apply eqb_neq; exact N); reflexivity ].

Ltac sound_guarded target :=
  split; [other_keys|own_key target].

Ltac sound_plain :=
  split; [other_keys|intros G; discriminate G].

Lemma described_sound (html : jsstring) : Forall sound (described html).
Proof.
  unfold described.
  repeat match goal with
  | |- Forall sound [] => apply Forall_nil
  | |- Forall sound (guarded_stage ?f ?k :: _) =>
      apply Forall_cons;
      [ let h := head_of f in unfold h; sound_guarded k |]
  | |- Forall sound (plain_stage ?f _ :: _) =>
      apply Forall_cons;
      [ let h := head_of f in unfold h; sound_plain |]
  end.
Qed.


(** A key no stage assigns comes out as it went in. *)
Lemma unwritten_stays (stages : list stage) (k : jsstring) :
  Forall sound stages -> ~ In k (flat_map writes stages) ->
  forall d, get k (run_stages (functions stages) d) = get k d.
Proof.
  induction 1 as [|s rest Hs _ IH]; intros Hk d; simpl in *; [reflexivity|].
  change (get k (run_stages (functions rest) (apply_stage s d)) = get k d).
  rewrite IH by (intros Hin; apply Hk; apply in_or_app; right; exact Hin).
  destruct Hs as [Hu _]. apply Hu. intros Hin. apply Hk. apply in_or_app.
  left; exact Hin.
Qed.

(** ** The URL stage and the JSON-LD loop *)

Lemma jsonld_product_keys (ld : value) (d d' : object) :
  keys_in earlier_keys d -> jsonld_product ld d = Normal d' -> keys_in earlier_keys d'.
Proof.
  intros Hd H. unfold jsonld_product, jsonld_offers, jsonld_rating in H.
  repeat step; repeat (apply keys_set; [|in_keys]); exact Hd.
Qed.

Lemma jsonld_product_asin (ld : value) (d d' : object) :
  jsonld_product ld d = Normal d' -> get (str "asin") d' = get (str "asin") d.
Proof.
  intros H. unfold jsonld_product, jsonld_offers, jsonld_rating in H.
  repeat step; rewrite ?get_set_other by reflexivity; reflexivity.
Qed.

Lemma stage_asin_keys (url : jsstring) : keys_in earlier_keys (stage_asin url []).
Proof.
  unfold stage_asin. destruct (str_match url asin_re); [|apply keys_nil].
  apply keys_set; [apply keys_nil|in_keys].
Qed.

Lemma stage_jsonld_keys (html url : jsstring) (data1 : object) :
  stage_jsonld html (stage_asin url []) = Normal data1 -> keys_in earlier_keys data1.
Proof.
  unfold stage_jsonld. intros H.
  eapply (@for_each_invariant (keys_in earlier_keys) jsonld_product);
    [intros ld d d' Hd Hb; eapply jsonld_product_keys; eauto| |exact H].
  apply stage_asin_keys.
Qed.

Lemma stage_jsonld_asin (html : jsstring) (data0 data1 : object) :
  stage_jsonld html data0 = Normal data1 ->
  get (str "asin") data1 = get (str "asin") data0.
Proof.
  unfold stage_jsonld. intros H.
  eapply (@for_each_invariant (fun d => get (str "asin") d = get (str "asin") data0)
            jsonld_product);
    [intros ld d d' Hd Hb; rewrite (@jsonld_product_asin ld d d' Hb); exact Hd| |exact H].
  reflexivity.
Qed.

Lemma bind_Normal {A B} (a : A) (f : A -> completion B) : bind (Normal a) f = f a.
Proof. reflexivity. Qed.

(** C2, amended.  In the Amazon routine no stage overwrites a field that
    an earlier stage has settled, where settled means: a truthy value,
    and for [inStock] any value other than [undefined] (these are the
    guards [!data.f] and [data.inStock === undefined] of the stages).
    - The [asin] seeded from the URL is the [asin] of the result: neither
      the JSON-LD loop nor a later stage assigns it.
    - At every point of the pipeline after the JSON-LD loop, a field that
      is settled at that point has the same value in the result; the
      point before the first of these stages is the end of the JSON-LD
      loop.
    - In particular a structured price other than 0 and NaN is left
      unchanged by the pattern-matching stages. *)
Theorem amazon_later_stages_keep_truthy_fields :
  forall (html url : jsstring) (data1 : object),
    stage_jsonld html (stage_asin url []) = Normal data1 ->
    exists data : object,
      Amazon.extract html url = Normal data
      /\ (forall asinMatch,
            str_match url asin_re = Some asinMatch ->
            get (str "asin") data = of_option (group 1 asinMatch))
      /\ (forall (pre post : list (object -> object)) (k : jsstring),
            later_stages html = pre ++ post ->
            settled k (get k (run_stages pre data1)) = true ->
            get k data = get k (run_stages pre data1))
      /\ (forall p : number,
            get (str "price") data1 = VNum p ->
            JsNumber.truthy p = true ->
            get (str "price") data = VNum p).
Proof.
  intros html url data1 Hld. unfold Amazon.extract.
  rewrite Hld, bind_Normal. eexists; split; [reflexivity|].
  rewrite after_jsonld_stages.
  assert (Hundef : forall k', ~ In k' earlier_keys -> get k' data1 = VUndefined).
  { intros k' Hk'. unfold get.
    rewrite (@keys_absent earlier_keys data1 k' (@stage_jsonld_keys html url data1 Hld) Hk').
    reflexivity. }
  assert (Hsplit : forall pre post k,
             later_stages html = pre ++ post ->
             settled k (get k (run_stages pre data1)) = true ->
             get k (run_stages (later_stages html) data1)
             = get k (run_stages pre data1)).
  { intros pre post k Hs Hk. rewrite Hs.
    apply (@pipeline_keeps_settled (described html) earlier_keys);
      [apply described_sound|apply described_separate| |exact Hundef|exact Hk].
    rewrite described_functions. exact Hs. }
  split; [|split].
  - intros asinMatch Hm. rewrite <- described_functions.
    rewrite unwritten_stays;
      [|apply described_sound|cbn; intuition discriminate].
    rewrite (@stage_jsonld_asin html _ data1 Hld). unfold stage_asin. rewrite Hm.
    apply get_set_same.
  - exact Hsplit.
  - intros p Hp Ht. rewrite <- Hp.
    apply (Hsplit [] (later_stages html) (str "price")); [reflexivity|].
    simpl run_stages. rewrite Hp. exact Ht.
Qed.

(** The scenario of the specification: a structured price of 29.99 and a
    conflicting pattern-matched price of 19.99. *)
Definition scenario_html : jsstring :=
  q "<script type=`application/ld+json`>{`@type`:`Product`,`name`:`Widget`,`offers`:{`price`:29.99}}</script><span class=`a-offscreen`>$19.99</span>".

(** The same page with a structured price of 0.00. *)
Definition zero_price_html : jsstring :=
  q "<script type=`application/ld+json`>{`@type`:`Product`,`name`:`Widget`,`offers`:{`price`:`0.00`}}</script><span class=`a-offscreen`>$19.99</span>".

Definition scenario_url : jsstring := str "https://www.amazon.com/dp/B0D1XD1ZV3".

(** The scenario yields 29.99, and the [asin] of the URL. *)
Lemma amazon_structured_price_scenario :
  exists data : object,
    Amazon.extract scenario_html scenario_url = Normal data
    /\ get (str "price") data = VNum (of_decimal false 2999 (-2))
    /\ get (str "asin") data = VStr (str "B0D1XD1ZV3").
Proof.
  destruct (@amazon_later_stages_keep_truthy_fields scenario_html scenario_url
              [ (str "asin", VStr (str "B0D1XD1ZV3")); (str "title", VStr (str "Widget"));
                (str "description", VUndefined); (str "brand", VUndefined);
                (str "imageUrl", VUndefined);
                (str "price", VNum (of_decimal false 2999 (-2))) ])
    as (data & Hex & Hasin & _ & Hprice).
  - vm_compute; reflexivity.
  - exists data; split; [exact Hex|split].
    + apply Hprice; vm_compute; reflexivity.
    + destruct (str_match scenario_url asin_re) as [m|] eqn:M;
        [|vm_compute in M; discriminate M].
      rewrite (Hasin m eq_refl).
      assert (E : Some m = str_match scenario_url asin_re) by (symmetry; exact M).
      vm_compute in E. injection E as ->. reflexivity.
Defined.

(** C2 as stated fails: the JSON-LD stage sets [price] to 0 (the text
    [0.00] is truthy, its value is not), the guard [!data.price] of the
    pattern stage then holds, and the pattern stage replaces the 0 by
    19.99. *)
Lemma amazon_zero_price_replaced :
  exists data1 data : object,
    stage_jsonld zero_price_html (stage_asin scenario_url []) = Normal data1
    /\ get (str "price") data1 = VNum (of_Z 0)
    /\ Amazon.extract zero_price_html scenario_url = Normal data
    /\ get (str "price") data = VNum (of_decimal false 1999 (-2))
    /\ get (str "price") data <> get (str "price") data1.
Proof.
  eexists; eexists.
  split; [vm_compute; reflexivity|].
  split; [vm_compute; reflexivity|].
  split; [vm_compute; reflexivity|].
  split; [vm_compute; reflexivity|].
  vm_compute; discriminate.
Qed.

End AmazonProofs.

(* ================================================================== *)
(** * Several structured objects in one payload *)
(* ================================================================== *)

Module JsonLdProofs.











(** ** Fields assigned without a look at the earlier value *)

Definition step := value -> object -> completion object.













(** ** The loop *)




(** ** The parts of the two bodies *)

























(** ** The price *)















End JsonLdProofs.

(* ================================================================== *)
(** * Duplicate identities (validate.ts) *)
(* ================================================================== *)

Module ValidatorProofs.













(** ** When the validator returns *)





Section Returns.
Variable new_URL : jsstring -> completion URL.
Variable urls : list jsstring.










End Returns.


(** A stand-in for the platform's URL constructor, for the examples
    only (the theorems hold for every constructor): it accepts text that
    starts with [http://] or [https://] and takes the host up to the
    next slash. *)
Fixpoint up_to_slash (s : jsstring) : jsstring :=
  match s with
  | [] => []
  | c :: s' => if N.eqb c 47 then [] else c :: up_to_slash s'
  end.

Definition sample_URL (u : jsstring) : completion URL :=
  if startsWith u (str "https://") then
    Normal {| hostname := toLowerCase (up_to_slash (skipn 8 u)) |}
  else if startsWith u (str "http://") then
    Normal {| hostname := toLowerCase (up_to_slash (skipn 7 u)) |}
  else Throw type_error.

(** [{ ...recipe, meta: { ...recipe.meta, slug } }], as the tests of
    validate.test.ts build their duplicates. *)
Definition with_slug (s : jsstring) (recipe : Recipe) : Recipe :=
  {| meta := {| slug := s;
                name := name (meta recipe);
                description := description (meta recipe);
                longDescription := longDescription (meta recipe);
                icon := icon (meta recipe);
                category := category (meta recipe);
                tags := tags (meta recipe);
                maintainers := maintainers (meta recipe);
                createdAt := createdAt (meta recipe);
                updatedAt := updatedAt (meta recipe);
                richExamples := richExamples (meta recipe) |};
     match_ := match_ recipe;
     fields := fields recipe;
     defaultAlerts := defaultAlerts recipe;
     extract := extract recipe;
     transformUrl := transformUrl recipe;
     headers := headers recipe;
     requiresJs := requiresJs recipe |}.






End ValidatorProofs.

(* ================================================================== *)
(** * The Amazon pipeline: the stock signal *)
(* ================================================================== *)

Module AmazonStockProofs.

Import Amazon AmazonProofs.

(** [v !== undefined] *)
Definition defined (v : value) : bool :=
  match v with VUndefined => false | _ => true end.

Definition keeps_defined (k : jsstring) (stage : object -> object) : Prop :=
  forall data, defined (get k data) = true -> get k (stage data) = get k data.

Lemma run_stages_keeps_defined (k : jsstring) (stages : list (object -> object)) :
  Forall (keeps_defined k) stages -> keeps_defined k (run_stages stages).
Proof.
  unfold run_stages. induction 1 as [|f fs Hf _ IH]; intros data H; simpl; [reflexivity|].
  rewrite IH; [apply Hf; exact H|]. rewrite Hf; exact H.
Qed.

Ltac keep_stock :=
  let data := fresh "data" in let H := fresh "H" in
  intros data H;
  unfold stage_title, stage_title_meta, stage_price_whole, stage_price_patterns,
    stage_original_price, stage_discount, stage_stock, stage_out_of_stock,
    stage_default_stock, stage_rating, stage_reviews, stage_brand, stage_seller,
    stage_prime, stage_deal, stage_coupon, stage_bsr, stage_delivery, stage_image,
    falsy, is_undefined;
  split_branches;
  first [ reflexivity
        | rewrite !get_set_other by reflexivity; reflexivity
        | exfalso;
          repeat match goal with
          | E : (_ && _)%bool = true |- _ => apply andb_true_iff in E; destruct E
          end;
          first [ discriminate H
                | destruct (get (str "inStock") data); try discriminate H;
                  match goal with E : _ = true |- _ => discriminate E end ] ].

Lemma later_stages_keep_stock (html : jsstring) :
  Forall (keeps_defined (str "inStock")) (later_stages html).
Proof.
  unfold later_stages.
  repeat (apply Forall_cons; [keep_stock|]).
  apply Forall_nil.
Qed.

(** The stock signal is guarded by [data.inStock === undefined]: once the
    JSON-LD stage has set it, to true or to false, no later stage changes
    it. *)
Lemma amazon_stock_signal_survives :
  forall (html url : jsstring) (data1 : object),
    stage_jsonld html (stage_asin url []) = Normal data1 ->
    defined (get (str "inStock") data1) = true ->
    exists data : object,
      Amazon.extract html url = Normal data
      /\ get (str "inStock") data = get (str "inStock") data1.
Proof.
  intros html url data1 Hld Hd. unfold Amazon.extract.
  rewrite Hld, bind_Normal. eexists; split; [reflexivity|].
  rewrite after_jsonld_stages.
  apply run_stages_keeps_defined; [apply later_stages_keep_stock|exact Hd].
Qed.

Definition out_of_stock_html : jsstring :=
  q "<script type=`application/ld+json`>{`@type`:`Product`,`offers`:{`price`:`5`,`availability`:`https://schema.org/OutOfStock`}}</script><span class=`a-color-success`>In Stock</span>".

(** A structured out-of-stock signal is not replaced by an in-stock
    pattern match. *)
Lemma amazon_stock_signal_example :
  exists data : object,
    Amazon.extract out_of_stock_html (str "https://www.amazon.com/") = Normal data
    /\ get (str "inStock") data = VBool false.
Proof.
  destruct (@amazon_stock_signal_survives out_of_stock_html (str "https://www.amazon.com/")
              [ (str "title", VUndefined); (str "description", VUndefined);
                (str "brand", VUndefined); (str "imageUrl", VUndefined);
                (str "price", VNum (of_Z 5)); (str "inStock", VBool false) ])
    as (data & Hex & Hs).
  - vm_compute; reflexivity.
  - reflexivity.
  - exists data; split; [exact Hex|]. rewrite Hs. reflexivity.
Defined.

End AmazonStockProofs.

(* ================================================================== *)
(** * The pattern literals *)
(* ================================================================== *)

Module PatternFacts.



End PatternFacts.

(* ================================================================== *)
(** * Scenarios: the specification's and the repository's own tests *)
(* ================================================================== *)

Module Scenarios.

Import ValidatorProofs.

Lemma first_match_app (before : list Recipe) (rest : list Recipe) (url : jsstring) :
  Forall (fun r => matches (match_ r) url = false) before ->
  first_match (before ++ rest) url = first_match rest url.
Proof.
  induction 1 as [|x before Hx _ IH]; simpl; [reflexivity|].
  unfold matches in Hx. destruct (match_ x); rewrite Hx; exact IH.
Qed.

(** Registration order is the tie-break: a recipe that accepts the URL is
    returned whenever every recipe registered before it rejects the URL,
    whatever the recipes registered after it do. *)
Lemma earlier_registration_wins :
  forall (before after : list Recipe) (r genericRecipe : Recipe) (url : jsstring),
    Forall (fun r' => matches (match_ r') url = false) before ->
    matches (match_ r) url = true ->
    getRecipeForUrl (before ++ r :: after) genericRecipe url = r.
Proof.
  intros before after r g url Hb Hr. unfold getRecipeForUrl.
  rewrite (@first_match_app before (r :: after) url Hb). simpl.
  unfold matches in Hr. destruct (match_ r); rewrite Hr; reflexivity.
Qed.

Definition with_match (m : Match) (recipe : Recipe) : Recipe :=
  {| meta := meta recipe; match_ := m; fields := fields recipe;
     defaultAlerts := defaultAlerts recipe; extract := extract recipe;
     transformUrl := transformUrl recipe; headers := headers recipe;
     requiresJs := requiresJs recipe |}.

(** The end-to-end scenario of the specification: one recipe owning
    [^https://shop\.test/item/] and the fallback. *)
Definition shopRecipe : Recipe :=
  with_match (MatchRegExp (regexp (str "^https:\/\/shop\.test\/item\/") ""))
    (with_slug (str "shop") genericRecipe).

Lemma dispatch_scenario :
  slug (meta (getRecipeForUrl [shopRecipe] genericRecipe (str "https://shop.test/item/9")))
  = str "shop"
  /\ slug (meta (getRecipeForUrl [shopRecipe] genericRecipe (str "https://other.test/")))
     = str "generic".
Proof. split; vm_compute; reflexivity. Qed.

(** Two recipes that both accept the same URL: swapping their
    registration order changes the winner. *)
Definition allShopRecipe : Recipe :=
  with_match (MatchRegExp (regexp (str "shop\.test") "i"))
    (with_slug (str "all-shop") genericRecipe).

Lemma earlier_registration_wins_example :
  getRecipeForUrl [shopRecipe; allShopRecipe] genericRecipe
    (str "https://shop.test/item/9") = shopRecipe.
Proof.
  apply (@earlier_registration_wins [] [allShopRecipe] shopRecipe genericRecipe
           (str "https://shop.test/item/9")).
  - constructor.
  - vm_compute; reflexivity.
Defined.

Lemma dispatch_order_decides :
  slug (meta (getRecipeForUrl [shopRecipe; allShopRecipe] genericRecipe
                (str "https://shop.test/item/9"))) = str "shop"
  /\ slug (meta (getRecipeForUrl [allShopRecipe; shopRecipe] genericRecipe
                   (str "https://shop.test/item/9"))) = str "all-shop".
Proof. split; vm_compute; reflexivity. Qed.

(** The tests of index.test.ts and validate.test.ts on the model. *)
Lemma index_test_dispatch :
  slug (meta (getRecipeForUrl [amazonRecipe] genericRecipe
                (str "https://www.amazon.com/dp/B08N5WRWNW"))) = str "amazon"
  /\ slug (meta (getRecipeForUrl [amazonRecipe] genericRecipe
                   (str "https://example.com/random"))) = str "generic".
Proof. split; vm_compute; reflexivity. Qed.



Definition generic_test_html : jsstring :=
  q "
			<title>Test Page</title>
			<meta name=`description` content=`A test page`>
			<meta name=`author` content=`Test Author`>
		".

Lemma index_test_generic_extract :
  Generic.extract generic_test_html (str "https://example.com")
  = Normal [ (str "title", VStr (str "Test Page"));
             (str "description", VStr (str "A test page"));
             (str "author", VStr (str "Test Author"));
             (str "mainContent", VStr (str "Test Page"));
             (str "wordCount", VNum (of_Z 2)) ].
Proof. vm_compute; reflexivity. Qed.

Lemma validate_test_generic_recipe :
  validateRecipe sample_URL (input_of genericRecipe)
  = Normal {| valid := true; errors := []; warnings := [] |}
  /\ validateRecipe sample_URL (input_of amazonRecipe)
     = Normal {| valid := true; errors := []; warnings := [] |}.
Proof. split; vm_compute; reflexivity. Qed.

Lemma validate_test_extract_generic :
  testExtractFunction genericRecipe (str "<title>Test</title>") (str "https://example.com")
  = Normal {| success := true;
              data := Some (VObj [ (str "title", VStr (str "Test"));
                                   (str "mainContent", VStr (str "Test"));
                                   (str "wordCount", VNum (of_Z 1)) ]);
              error := None |}.
Proof. vm_compute; reflexivity. Qed.


End Scenarios.

